(** * StarRocks slow-query analyzer: problem detection and suggestion rules

    A shallow embedding of the decision logic of
    [slow_query_collector.py] (the [SlowQueryInfo] record and its derived
    attributes), [query_analyzer.py] (the [QueryAnalyzer] detection passes)
    and [optimization_suggester.py] (the [OptimizationSuggester] mapping),
    followed by the properties the specification states about them.

    Conventions of the embedding.
    - A Python [str] is a list of Unicode code points ([N]); [lit] turns a
      UTF-8 literal of this file into such a list.
    - A Python [int] is a [Z]; a Python [float] is a binary64 [float].
    - Statements that can raise are written in the error monad [Exc];
      [try_except] is [try: ... except Exception: ...].
    - What belongs to the Python run time or to the third-party [sqlparse]
      package and is not fixed by the repository (the Unicode tables outside
      ASCII, the iteration order of a [set], the [.2f] rendering of a float,
      true division of integers, [sqlparse.parse]) is a field of the class
      [Runtime]; every result holds for every run time. *)

From Stdlib Require Import ZArith NArith List Bool String Ascii Floats Lia.
From Stdlib Require Import DecimalString.
Import ListNotations.

Local Open Scope list_scope.

(* ================================================================== *)
(** ** Python strings *)

Module Str.

Definition char := N.
Definition str := list char.

(** Decoding of the UTF-8 bytes of a literal into code points. *)
Fixpoint utf8_decode (bs : list N) : str :=
  match bs with
  | [] => []
  | b0 :: r0 =>
    if (b0 <? 128)%N then b0 :: utf8_decode r0
    else match r0 with
    | [] => []
    | b1 :: r1 =>
      if (b0 <? 224)%N then ((b0 mod 32) * 64 + b1 mod 64)%N :: utf8_decode r1
      else match r1 with
      | [] => []
      | b2 :: r2 =>
        if (b0 <? 240)%N
        then ((b0 mod 16) * 4096 + (b1 mod 64) * 64 + b2 mod 64)%N :: utf8_decode r2
        else match r2 with
        | [] => []
        | b3 :: r3 =>
          ((b0 mod 8) * 262144 + (b1 mod 64) * 4096 + (b2 mod 64) * 64 + b3 mod 64)%N
            :: utf8_decode r3
        end
      end
    end
  end.

Definition lit (x : string) : str :=
  utf8_decode (map N_of_ascii (list_ascii_of_string x)).

(** The code point of a one-character literal. *)
Definition chr (x : string) : char := hd 0%N (lit x).

(** The classes [[cs]] and [[^x]]. *)
Definition char_in (cs : str) (c : char) : bool := existsb (N.eqb c) cs.
Definition not_chr (x : string) (c : char) : bool := negb (c =? chr x)%N.

Fixpoint str_eqb (a b : str) : bool :=
  match a, b with
  | [], [] => true
  | x :: a', y :: b' => (x =? y)%N && str_eqb a' b'
  | _, _ => false
  end.

(** [s.startswith(p)] *)
Fixpoint startswith (p s : str) : bool :=
  match p, s with
  | [], _ => true
  | x :: p', y :: s' => (x =? y)%N && startswith p' s'
  | _ :: _, [] => false
  end.

(** [p in s] *)
Fixpoint contains (p s : str) : bool :=
  startswith p s || match s with [] => false | _ :: s' => contains p s' end.

(** [x in xs] for a list of strings *)
Definition str_in (x : str) (xs : list str) : bool := existsb (str_eqb x) xs.

(** [sep.join(xs)] *)
Fixpoint join (sep : str) (xs : list str) : str :=
  match xs with
  | [] => []
  | [x] => x
  | x :: xs' => x ++ sep ++ join sep xs'
  end.

Fixpoint lstrip_chars (cs : str) (s : str) : str :=
  match s with
  | c :: s' => if char_in cs c then lstrip_chars cs s' else s
  | [] => []
  end.

(** [s.strip(cs)]: the characters of [cs] removed at both ends. *)
Definition strip_chars (cs s : str) : str :=
  rev (lstrip_chars cs (rev (lstrip_chars cs s))).

(** [str(n)] for an integer. *)
Definition str_of_Z (n : Z) : str :=
  map N_of_ascii (list_ascii_of_string (NilZero.string_of_int (Z.to_int n))).

(** ASCII character classes. *)
Definition is_upper_ascii (c : char) : bool := (65 <=? c)%N && (c <=? 90)%N.
Definition is_lower_ascii (c : char) : bool := (97 <=? c)%N && (c <=? 122)%N.
Definition is_digit_ascii (c : char) : bool := (48 <=? c)%N && (c <=? 57)%N.
Definition is_letter_ascii (c : char) : bool := is_upper_ascii c || is_lower_ascii c.
Definition upper_ascii (c : char) : char := if is_lower_ascii c then (c - 32)%N else c.
Definition lower_ascii (c : char) : char := if is_upper_ascii c then (c + 32)%N else c.
(** [ \t\n\v\f\r] and the separators [\x1c]..[\x1f] *)
Definition is_space_ascii (c : char) : bool :=
  ((9 <=? c)%N && (c <=? 13)%N) || ((28 <=? c)%N && (c <=? 32)%N).

End Str.
Import Str.

(* ================================================================== *)
(** ** Exceptions *)

Inductive exn :=
| AttributeError
| IndexError
| TypeError
| LibraryError (name : string).

Inductive Exc (A : Type) :=
| Ok (a : A)
| Raise (e : exn).
Arguments Ok {A} a.
Arguments Raise {A} e.

Definition bind {A B} (m : Exc A) (f : A -> Exc B) : Exc B :=
  match m with
  | Ok a => f a
  | Raise e => Raise e
  end.

Notation "x <- m ;; k" := (bind m (fun x => k))
  (at level 61, m at next level, right associativity).

(** [try: body  except Exception as e: handler(e)] *)
Definition try_except {A} (body : Exc A) (handler : exn -> Exc A) : Exc A :=
  match body with
  | Ok a => Ok a
  | Raise e => handler e
  end.

(** [xs[0]] *)
Definition index0 {A} (xs : list A) : Exc A :=
  match xs with
  | x :: _ => Ok x
  | [] => Raise IndexError
  end.

(* ================================================================== *)
(** ** The run time *)

Class Runtime := {
  (** [c.upper()] for a code point outside ASCII (it may expand) *)
  unicode_upper : char -> str;
  (** [\s] outside ASCII *)
  unicode_isspace : char -> bool;
  (** alphanumeric ([\w] without the underscore) outside ASCII *)
  unicode_isalnum : char -> bool;
  (** [re.IGNORECASE]: does the lower-case ASCII letter [p] of a pattern
      match the text character [c] outside ASCII *)
  unicode_ignorecase : char -> char -> bool;
  (** [list(set(xs))]: the distinct elements, in an order Python leaves
      open *)
  list_of_set : list str -> list str;
  list_of_set_In : forall xs x, In x (list_of_set xs) <-> In x xs;
  list_of_set_NoDup : forall xs, NoDup (list_of_set xs);
  (** [f"{x:.2f}"] *)
  format_2f : float -> str;
  (** [a / b] on integers *)
  int_truediv : Z -> Z -> float;
  (** the statements of [sqlparse] and [sqlparse.parse] *)
  Statement : Type;
  sqlparse_parse : str -> Exc (list Statement)
}.

Section WithRuntime.
Context {rt : Runtime}.

Definition is_space (c : char) : bool :=
  if (c <? 128)%N then is_space_ascii c else unicode_isspace c.

(** [\w] *)
Definition is_word (c : char) : bool :=
  if (c <? 128)%N
  then is_letter_ascii c || is_digit_ascii c || (c =? chr "_")%N
  else unicode_isalnum c.

(** [s.upper()] *)
Definition str_upper (s : str) : str :=
  flat_map (fun c => if (c <? 128)%N then [upper_ascii c] else unicode_upper c) s.

(** A literal character [p] of a pattern compiled with [re.IGNORECASE]. *)
Definition chr_ci (p c : char) : bool :=
  if is_letter_ascii p
  then if (c <? 128)%N then (lower_ascii c =? lower_ascii p)%N
       else unicode_ignorecase (lower_ascii p) c
  else (c =? p)%N.

End WithRuntime.

(* ================================================================== *)
(** ** Regular expressions ([re])

    The patterns of the two modules use literals, character classes, [|],
    one capturing group, [\b], [$], and repetition of a single character
    class only ([\s+], [[^;]+], [[^;]+?], ...).  [re_match] is the
    backtracking matcher of [re]: alternatives in order, greedy repetition
    longest first, lazy repetition shortest first. *)

Inductive regex :=
| Eps
| Chr (p : char -> bool)
| Seq (r1 r2 : regex)
| Alt (r1 r2 : regex)
| Rep (greedy : bool) (lo : nat) (p : char -> bool)
| Group (r : regex)
| WordB
| EndS.

(** A literal string, and a literal string under [re.IGNORECASE]. *)
Fixpoint Lit (s : str) : regex :=
  match s with
  | [] => Eps
  | c :: s' => Seq (Chr (N.eqb c)) (Lit s')
  end.

Section Regex.
Context {rt : Runtime}.

Fixpoint LitCI (s : str) : regex :=
  match s with
  | [] => Eps
  | c :: s' => Seq (Chr (chr_ci c)) (LitCI s')
  end.

Section Match.
Context {R : Type}.

(** [p{lo,}] at [s], the character before [s] being [prev]. *)
Fixpoint rep_match (greedy : bool) (p : char -> bool) (lo : nat)
    (k : option char -> str -> option R) (prev : option char) (s : str) : option R :=
  match lo with
  | S lo' =>
    match s with
    | c :: s' => if p c then rep_match greedy p lo' k (Some c) s' else None
    | [] => None
    end
  | O =>
    (fix more (prev : option char) (s : str) : option R :=
       match s with
       | c :: s' =>
         if p c then
           if greedy
           then match more (Some c) s' with Some x => Some x | None => k prev s end
           else match k prev s with Some x => Some x | None => more (Some c) s' end
         else k prev s
       | [] => k prev s
       end) prev s
  end.

Definition is_word_at (c : option char) : bool :=
  match c with Some c => is_word c | None => false end.

(** The continuation receives the character before the position reached,
    the rest of the text and the content of group 1. *)
Fixpoint re_match (r : regex) (k : option char -> str -> option str -> option R)
    (prev : option char) (s : str) (g : option str) : option R :=
  match r with
  | Eps => k prev s g
  | Chr p =>
    match s with
    | c :: s' => if p c then k (Some c) s' g else None
    | [] => None
    end
  | Seq r1 r2 => re_match r1 (re_match r2 k) prev s g
  | Alt r1 r2 =>
    match re_match r1 k prev s g with
    | Some x => Some x
    | None => re_match r2 k prev s g
    end
  | Rep greedy lo p => rep_match greedy p lo (fun prev' s' => k prev' s' g) prev s
  | Group r1 =>
    re_match r1
      (fun prev' s' _ => k prev' s' (Some (firstn (List.length s - List.length s') s)))
      prev s g
  | WordB =>
    if xorb (is_word_at prev) (is_word_at (hd_error s)) then k prev s g else None
  | EndS =>
    match s with
    | [] => k prev s g
    | [c] => if (c =? 10)%N then k prev s g else None
    | _ => None
    end
  end.

End Match.

(** A match object: the text before the match, the matched text
    ([group(0)]), the text after it, and [group(1)]. *)
Record match_obj := {
  m_before : str;
  m_text : str;
  m_after : str;
  m_group1 : option str
}.

(** [group(1)]; a group that took no part in the match reads as [''] in
    [findall]. *)
Definition group1 (m : match_obj) : str :=
  match m_group1 m with Some g => g | None => [] end.

(** The pattern at the start of [s]. *)
Definition match_here (r : regex) (prev : option char) (s : str)
    : option (str * option str) :=
  re_match r (fun _ s' g => Some (s', g)) prev s None.

(** The leftmost match in [s], [before] (reversed) being the text already
    passed and [prev] its last character. *)
Fixpoint search_from (r : regex) (before : str) (prev : option char) (s : str)
    : option match_obj :=
  match match_here r prev s with
  | Some (s', g) =>
    Some {| m_before := rev before; m_text := firstn (List.length s - List.length s') s;
            m_after := s'; m_group1 := g |}
  | None =>
    match s with
    | [] => None
    | c :: s' => search_from r (c :: before) (Some c) s'
    end
  end.

(** [re.search(r, s)] *)
Definition re_search (r : regex) (s : str) : option match_obj :=
  search_from r [] None s.

(** The pattern at the start of [s], an empty match being refused (what
    [re] does at the position where the previous match was empty). *)
Definition match_here_advancing (r : regex) (prev : option char) (s : str)
    : option (str * option str) :=
  re_match r
    (fun _ s' g => if (List.length s' <? List.length s)%nat then Some (s', g) else None)
    prev s None.

(** The leftmost match in [s], an empty match at the start of [s] being
    refused when [advance] is set. *)
Definition search_next (r : regex) (advance : bool) (prev : option char) (s : str)
    : option match_obj :=
  if advance then
    match match_here_advancing r prev s with
    | Some (s', g) =>
      Some {| m_before := []; m_text := firstn (List.length s - List.length s') s;
              m_after := s'; m_group1 := g |}
    | None =>
      match s with
      | [] => None
      | c :: s' => search_from r [c] (Some c) s'
      end
    end
  else search_from r [] prev s.

(** The character before the position reached after [consumed]. *)
Definition prev_after (prev : option char) (consumed : str) : option char :=
  fold_left (fun _ c => Some c) consumed prev.

(** The successive non-overlapping matches of [r] in [s]
    ([re.finditer]); [m_before] of each match is the text since the end of
    the previous one.  Two searches in a row move on by one character at
    least, so that [fuel] twice the length of the text and two is enough. *)
Fixpoint finditer_from (fuel : nat) (r : regex) (advance : bool)
    (prev : option char) (s : str) : list match_obj :=
  match fuel with
  | O => []
  | S fuel' =>
    match search_next r advance prev s with
    | None => []
    | Some m =>
      m :: finditer_from fuel' r
             (match m_text m with [] => true | _ => false end)
             (prev_after prev (m_before m ++ m_text m)) (m_after m)
    end
  end.

Definition re_finditer (r : regex) (s : str) : list match_obj :=
  finditer_from (2 * List.length s + 2) r false None s.

(** [re.findall(r, s)] for a pattern with one group. *)
Definition re_findall (r : regex) (s : str) : list str :=
  map group1 (re_finditer r s).

(** The text after the last match of [s], or [s] itself. *)
Definition tail_text (ms : list match_obj) (s : str) : str :=
  match ms with
  | [] => s
  | _ => m_after (last ms {| m_before := []; m_text := []; m_after := [];
                             m_group1 := None |})
  end.

(** [re.sub(r, repl, s)] for a replacement without group references. *)
Definition re_sub (r : regex) (repl : str) (s : str) : str :=
  let ms := re_finditer r s in
  flat_map (fun m => m_before m ++ repl) ms ++ tail_text ms s.

(** [re.split(r, s)] for a pattern without groups. *)
Definition re_split (r : regex) (s : str) : list str :=
  let ms := re_finditer r s in
  map m_before ms ++ [tail_text ms s].

End Regex.

(* ================================================================== *)
(** ** slow_query_collector.py: [SlowQueryInfo] *)

Definition datetime := Z.

(** The dataclass.  [query_text] is declared [str]; nothing checks the
    annotation when a record is built, and the analyzer and the suggester
    take [query_info] unannotated, so the attribute may hold [None]. *)
Record SlowQueryInfo := {
  query_id : str;
  query_text : option str;
  database : str;
  user : str;
  execution_time : float;
  scan_rows : Z;
  scan_bytes : Z;
  memory_used : Z;
  cpu_time : float;
  start_time : datetime;
  end_time : datetime;
  peak_memory : Z;
  rows_returned : Z
}.

Section Collector.
Context {rt : Runtime}.

Definition execution_time_ms (self : SlowQueryInfo) : float :=
  (execution_time self * 1000)%float.

Definition scan_rows_formatted (self : SlowQueryInfo) : str :=
  if (100000000 <=? scan_rows self)%Z
  then format_2f (int_truediv (scan_rows self) 100000000) ++ lit " 亿"
  else if (10000 <=? scan_rows self)%Z
  then format_2f (int_truediv (scan_rows self) 10000) ++ lit " 万"
  else str_of_Z (scan_rows self).

Definition scan_bytes_formatted (self : SlowQueryInfo) : str :=
  if (1073741824 <=? scan_bytes self)%Z
  then format_2f (int_truediv (scan_bytes self) 1073741824) ++ lit " GB"
  else if (1048576 <=? scan_bytes self)%Z
  then format_2f (int_truediv (scan_bytes self) 1048576) ++ lit " MB"
  else if (1024 <=? scan_bytes self)%Z
  then format_2f (int_truediv (scan_bytes self) 1024) ++ lit " KB"
  else str_of_Z (scan_bytes self) ++ lit " B".

Definition severity (self : SlowQueryInfo) : str :=
  if (10.0 <=? execution_time self)%float then lit "CRITICAL"
  else if (5.0 <=? execution_time self)%float then lit "HIGH"
  else if (1.0 <=? execution_time self)%float then lit "MEDIUM"
  else lit "LOW".

End Collector.

(* ================================================================== *)
(** ** query_analyzer.py *)

Inductive ProblemType :=
| FULL_TABLE_SCAN
| NO_INDEX
| TOO_MANY_ROWS
| MEMORY_INTENSIVE
| JOIN_INEFFICIENT
| SUBQUERY_INEFFICIENT
| ORDERBY_EXPENSIVE
| GROUPBY_EXPENSIVE
| LARGE_RESULT_SET
| NO_WHERE_CLAUSE
| SELECT_STAR
| OR_CONDITION
| LIKE_PREFIX_WILDCARD
| FUNCTION_IN_WHERE.

(** [problem_type.name] *)
Definition ProblemType_name (t : ProblemType) : str :=
  match t with
  | FULL_TABLE_SCAN => lit "FULL_TABLE_SCAN"
  | NO_INDEX => lit "NO_INDEX"
  | TOO_MANY_ROWS => lit "TOO_MANY_ROWS"
  | MEMORY_INTENSIVE => lit "MEMORY_INTENSIVE"
  | JOIN_INEFFICIENT => lit "JOIN_INEFFICIENT"
  | SUBQUERY_INEFFICIENT => lit "SUBQUERY_INEFFICIENT"
  | ORDERBY_EXPENSIVE => lit "ORDERBY_EXPENSIVE"
  | GROUPBY_EXPENSIVE => lit "GROUPBY_EXPENSIVE"
  | LARGE_RESULT_SET => lit "LARGE_RESULT_SET"
  | NO_WHERE_CLAUSE => lit "NO_WHERE_CLAUSE"
  | SELECT_STAR => lit "SELECT_STAR"
  | OR_CONDITION => lit "OR_CONDITION"
  | LIKE_PREFIX_WILDCARD => lit "LIKE_PREFIX_WILDCARD"
  | FUNCTION_IN_WHERE => lit "FUNCTION_IN_WHERE"
  end.

(** [problem_type.value] *)
Definition ProblemType_value (t : ProblemType) : str :=
  match t with
  | FULL_TABLE_SCAN => lit "全表扫描"
  | NO_INDEX => lit "缺少索引"
  | TOO_MANY_ROWS => lit "扫描行数过多"
  | MEMORY_INTENSIVE => lit "内存使用过高"
  | JOIN_INEFFICIENT => lit "JOIN 低效"
  | SUBQUERY_INEFFICIENT => lit "子查询低效"
  | ORDERBY_EXPENSIVE => lit "ORDER BY 昂贵"
  | GROUPBY_EXPENSIVE => lit "GROUP BY 昂贵"
  | LARGE_RESULT_SET => lit "结果集过大"
  | NO_WHERE_CLAUSE => lit "缺少 WHERE 条件"
  | SELECT_STAR => lit "使用 SELECT *"
  | OR_CONDITION => lit "使用 OR 条件"
  | LIKE_PREFIX_WILDCARD => lit "LIKE 前缀通配符"
  | FUNCTION_IN_WHERE => lit "WHERE 子句中使用函数"
  end.

(** The field [severity] is [problem_severity] here: [severity] is already
    the derived attribute of [SlowQueryInfo]. *)
Record QueryProblem := {
  problem_type : ProblemType;
  problem_severity : str;
  description : str;
  suggestion : str;
  evidence : str
}.

(** A configuration dictionary. *)
Definition Config := list (string * Z).

Fixpoint dict_get (d : Config) (key : string) (default : Z) : Z :=
  match d with
  | [] => default
  | (k, v) :: d' => if String.eqb k key then v else dict_get d' key default
  end.

Record QueryAnalyzer := {
  config : Config;
  max_scan_rows : Z;
  max_scan_bytes : Z
}.

(** [QueryAnalyzer.__init__] *)
Definition QueryAnalyzer_init (cfg : option Config) : QueryAnalyzer :=
  let config := match cfg with Some c => c | None => [] end in
  {| config := config;
     max_scan_rows := dict_get config "max_scan_rows" 10000000;
     max_scan_bytes := dict_get config "max_scan_bytes" 1073741824 |}.

(** What the analyzer observes of an execution plan: its truth value and
    its [str()]. *)
Record Plan := {
  plan_truthy : bool;
  plan_str : str
}.

Definition dquote : char := 34%N.
Definition squote : char := 39%N.
Definition nl : str := [10%N].

(** The patterns of [_analyze_sql_structure]. *)
Section AnalyzerPatterns.
Context {rt : Runtime}.

(** [\bOR\b] *)
Definition re_or : regex := Seq WordB (Seq (Lit (lit "OR")) WordB).

(** [LIKE\s+Q%[^%]], [Q] being the class of the two quote characters *)
Definition re_like_prefix : regex :=
  Seq (Lit (lit "LIKE"))
 (Seq (Rep true 1 is_space)
 (Seq (Chr (char_in [squote; dquote]))
 (Seq (Chr (N.eqb (chr "%")))
      (Chr (not_chr "%"))))).

(** [WHERE\s+([^;]+)] *)
Definition re_where : regex :=
  Seq (Lit (lit "WHERE"))
 (Seq (Rep true 1 is_space)
      (Group (Rep true 1 (not_chr ";")))).

(** [[A-Z_]+\([^)]+\)] *)
Definition re_function_call : regex :=
  Seq (Rep true 1 (fun c => is_upper_ascii c || (c =? chr "_")%N))
 (Seq (Chr (N.eqb (chr "(")))
 (Seq (Rep true 1 (not_chr ")"))
      (Chr (N.eqb (chr ")"))))).

(** [(COUNT|SUM|AVG|MAX|MIN)\(] *)
Definition re_aggregate : regex :=
  Seq (Group (Alt (Lit (lit "COUNT")) (Alt (Lit (lit "SUM")) (Alt (Lit (lit "AVG"))
             (Alt (Lit (lit "MAX")) (Lit (lit "MIN")))))))
      (Chr (N.eqb (chr "("))).

(** [FROM\s*\([^)]+SELECT] with [re.IGNORECASE] *)
Definition re_subquery : regex :=
  Seq (LitCI (lit "FROM"))
 (Seq (Rep true 0 is_space)
 (Seq (Chr (N.eqb (chr "(")))
 (Seq (Rep true 1 (not_chr ")"))
      (LitCI (lit "SELECT"))))).

End AnalyzerPatterns.

Section Analyzer.
Context {rt : Runtime}.

(** [query_info.query_text.upper()]: an attribute error on [None]. *)
Definition upper_method (text : option str) : Exc str :=
  match text with
  | Some t => Ok (str_upper t)
  | None => Raise AttributeError
  end.

(** [sqlparse.parse(text)] *)
Definition parse_method (text : option str) : Exc (list Statement) :=
  match text with
  | Some t => sqlparse_parse t
  | None => Raise TypeError
  end.

Definition _analyze_execution_time (query_info : SlowQueryInfo) : list QueryProblem :=
  let problems := [] in
  if (10.0 <=? execution_time query_info)%float then
    problems ++ [{|
      problem_type := FULL_TABLE_SCAN;
      problem_severity := lit "CRITICAL";
      description := lit "查询执行时间过长: " ++ format_2f (execution_time query_info)
                       ++ lit " 秒";
      suggestion := lit "检查是否有全表扫描，考虑添加索引或优化查询逻辑";
      evidence := lit "执行时间: " ++ format_2f (execution_time query_info) ++ lit "s" |}]
  else if (5.0 <=? execution_time query_info)%float then
    problems ++ [{|
      problem_type := FULL_TABLE_SCAN;
      problem_severity := lit "HIGH";
      description := lit "查询执行时间较长: " ++ format_2f (execution_time query_info)
                       ++ lit " 秒";
      suggestion := lit "分析查询计划，检查是否需要优化";
      evidence := lit "执行时间: " ++ format_2f (execution_time query_info) ++ lit "s" |}]
  else problems.

Definition _analyze_scan_data (self : QueryAnalyzer) (query_info : SlowQueryInfo)
    : list QueryProblem :=
  let problems := [] in
  let problems :=
    if (scan_rows query_info >? max_scan_rows self)%Z then
      problems ++ [{|
        problem_type := TOO_MANY_ROWS;
        problem_severity := lit "HIGH";
        description := lit "扫描行数过多: " ++ scan_rows_formatted query_info;
        suggestion := lit "考虑添加合适的 WHERE 条件或索引，减少扫描行数";
        evidence := lit "扫描行数: " ++ str_of_Z (scan_rows query_info) |}]
    else problems in
  let problems :=
    if (scan_bytes query_info >? max_scan_bytes self)%Z then
      problems ++ [{|
        problem_type := TOO_MANY_ROWS;
        problem_severity := lit "HIGH";
        description := lit "扫描数据量过大: " ++ scan_bytes_formatted query_info;
        suggestion := lit "只查询需要的列，避免 SELECT *，考虑分区裁剪";
        evidence := lit "扫描字节数: " ++ str_of_Z (scan_bytes query_info) |}]
    else problems in
  let problems :=
    if (memory_used query_info >? 536870912)%Z then
      problems ++ [{|
        problem_type := MEMORY_INTENSIVE;
        problem_severity := lit "MEDIUM";
        description := lit "内存使用较高: "
                         ++ format_2f (int_truediv (memory_used query_info) 1048576)
                         ++ lit " MB";
        suggestion := lit "考虑增加内存限制、优化查询或调整执行引擎参数";
        evidence := lit "内存使用: "
                      ++ format_2f (int_truediv (memory_used query_info) 1048576)
                      ++ lit " MB" |}]
    else problems in
  problems.

Definition select_star_problem : QueryProblem := {|
  problem_type := SELECT_STAR;
  problem_severity := lit "MEDIUM";
  description := lit "使用 SELECT * 可能会返回不必要的列";
  suggestion := lit "明确指定需要的列，减少数据传输和内存使用";
  evidence := lit "SELECT *" |}.

Definition or_condition_problem : QueryProblem := {|
  problem_type := OR_CONDITION;
  problem_severity := lit "LOW";
  description := lit "使用 OR 条件可能导致索引失效";
  suggestion := lit "考虑使用 UNION ALL 代替 OR，或优化查询逻辑";
  evidence := lit "发现 OR 条件" |}.

Definition like_prefix_problem : QueryProblem := {|
  problem_type := LIKE_PREFIX_WILDCARD;
  problem_severity := lit "HIGH";
  description := lit "LIKE 使用前缀通配符 %... 无法使用索引";
  suggestion := lit "避免前缀通配符，考虑使用全文索引或倒排索引";
  evidence := lit "LIKE '%...'" |}.

Definition function_in_where_problem : QueryProblem := {|
  problem_type := FUNCTION_IN_WHERE;
  problem_severity := lit "MEDIUM";
  description := lit "WHERE 子句中使用函数可能导致索引失效";
  suggestion := lit "将函数移到比较符号的另一侧，或使用计算列索引";
  evidence := lit "WHERE 子句包含函数" |}.

Definition no_where_problem : QueryProblem := {|
  problem_type := NO_WHERE_CLAUSE;
  problem_severity := lit "HIGH";
  description := lit "SELECT 查询缺少 WHERE 条件";
  suggestion := lit "添加 WHERE 条件限制数据范围，避免全表扫描";
  evidence := lit "缺少 WHERE 条件" |}.

Definition subquery_problem : QueryProblem := {|
  problem_type := SUBQUERY_INEFFICIENT;
  problem_severity := lit "MEDIUM";
  description := lit "发现子查询，可能影响性能";
  suggestion := lit "考虑使用 CTE (WITH 子句) 或 JOIN 替代子查询";
  evidence := lit "发现子查询" |}.

Definition is_some {A} (o : option A) : bool :=
  match o with Some _ => true | None => false end.

(** The body of the [try] once [sqlparse.parse(...)[0]] has returned: the
    six checks, in order, on the upper-cased text. *)
Definition structure_checks (sql : str) (problems : list QueryProblem)
    : list QueryProblem :=
  let problems :=
    if contains (lit "SELECT *") sql then problems ++ [select_star_problem]
    else problems in
  let problems :=
    if is_some (re_search re_or sql) && contains (lit "WHERE") sql
    then problems ++ [or_condition_problem]
    else problems in
  let problems :=
    if is_some (re_search re_like_prefix sql) then problems ++ [like_prefix_problem]
    else problems in
  let problems :=
    match re_search re_where sql with
    | Some where_match =>
      let where_clause := group1 where_match in
      if is_some (re_search re_function_call where_clause)
      then problems ++ [function_in_where_problem]
      else problems
    | None => problems
    end in
  let has_where := contains (lit "WHERE") sql in
  let has_join := contains (lit "JOIN") sql in
  let is_select := startswith (lit "SELECT") sql in
  let problems :=
    if is_select && negb has_where && negb has_join then
      if negb (is_some (re_search re_aggregate sql))
      then problems ++ [no_where_problem]
      else problems
    else problems in
  let problems :=
    if is_some (re_search re_subquery sql) then problems ++ [subquery_problem]
    else problems in
  problems.

(** [.upper()] is evaluated before the [try]; inside it only
    [sqlparse.parse(...)[0]] can raise, with [problems] still empty, and the
    handler logs a warning and falls through to [return problems]. *)
Definition _analyze_sql_structure (query_info : SlowQueryInfo)
    : Exc (list QueryProblem) :=
  let problems := [] in
  sql <- upper_method (query_text query_info) ;;
  try_except
    (stmts <- parse_method (query_text query_info) ;;
     parsed <- index0 stmts ;;
     Ok (structure_checks sql problems))
    (fun e => Ok problems).

Definition _analyze_execution_plan (execution_plan : Plan) : list QueryProblem :=
  let problems := [] in
  let plan_str := str_upper (plan_str execution_plan) in
  if contains (lit "OLAP_SCAN") plan_str || contains (lit "FULL_SCAN") plan_str then
    problems ++ [{|
      problem_type := FULL_TABLE_SCAN;
      problem_severity := lit "MEDIUM";
      description := lit "执行计划显示可能存在全表扫描";
      suggestion := lit "检查是否可以利用索引或分区裁剪";
      evidence := lit "执行计划包含全表扫描" |}]
  else problems.

Definition analyze_query (self : QueryAnalyzer) (query_info : SlowQueryInfo)
    (execution_plan : option Plan) : Exc (list QueryProblem) :=
  let problems := [] in
  let problems := problems ++ _analyze_execution_time query_info in
  let problems := problems ++ _analyze_scan_data self query_info in
  structure <- _analyze_sql_structure query_info ;;
  let problems := problems ++ structure in
  let problems :=
    match execution_plan with
    | Some p => if plan_truthy p then problems ++ _analyze_execution_plan p
                else problems
    | None => problems
    end in
  Ok problems.

End Analyzer.

(* ================================================================== *)
(** ** optimization_suggester.py *)

Record OptimizationSuggestion := {
  title : str;
  suggestion_description : str;
  priority : str;
  category : str;
  original_sql : option str;
  suggested_sql : option str;
  estimated_improvement : option str;
  implementation_notes : option str
}.

Section SuggesterPatterns.
Context {rt : Runtime}.

Definition ident_start (c : char) : bool := is_letter_ascii c || (c =? chr "_")%N.
Definition ident_char (c : char) : bool :=
  is_letter_ascii c || is_digit_ascii c || (c =? chr "_")%N.

(** [LIKE\s+Q%] with [re.IGNORECASE], [Q] the class of the two quotes *)
Definition re_like_rewrite : regex :=
  Seq (LitCI (lit "LIKE"))
 (Seq (Rep true 1 is_space)
 (Seq (Chr (char_in [squote; dquote]))
      (Chr (N.eqb (chr "%"))))).

(** [WHERE\s+([^;]+)] with [re.IGNORECASE] *)
Definition re_where_ci : regex :=
  Seq (LitCI (lit "WHERE"))
 (Seq (Rep true 1 is_space) (Group (Rep true 1 (not_chr ";")))).

(** [ORDER BY|GROUP BY] with [re.IGNORECASE] *)
Definition re_order_or_group : regex :=
  Alt (LitCI (lit "ORDER BY")) (LitCI (lit "GROUP BY")).

(** [\b(I)\s*[=<>!]], the identifier [I] being [[a-zA-Z_][a-zA-Z0-9_]*] *)
Definition re_compared_ident : regex :=
  Seq WordB
 (Seq (Group (Seq (Chr ident_start) (Rep true 0 ident_char)))
 (Seq (Rep true 0 is_space)
      (Chr (char_in (lit "=<>!"))))).

(** [ORDER BY\s+([^;]+)] with [re.IGNORECASE] *)
Definition re_order_by : regex :=
  Seq (LitCI (lit "ORDER BY"))
 (Seq (Rep true 1 is_space) (Group (Rep true 1 (not_chr ";")))).

(** [\b(I)\b], the identifier [I] being [[a-zA-Z_][a-zA-Z0-9_]*] *)
Definition re_ident : regex :=
  Seq WordB
 (Seq (Group (Seq (Chr ident_start) (Rep true 0 ident_char)))
      WordB).

(** [ON\s+([^;]+?)(?:JOIN|WHERE|GROUP BY|ORDER BY|$)] with [re.IGNORECASE] *)
Definition re_on : regex :=
  Seq (LitCI (lit "ON"))
 (Seq (Rep true 1 is_space)
 (Seq (Group (Rep false 1 (not_chr ";")))
      (Alt (LitCI (lit "JOIN")) (Alt (LitCI (lit "WHERE"))
      (Alt (LitCI (lit "GROUP BY")) (Alt (LitCI (lit "ORDER BY")) EndS)))))).

(** [{keyword}\s+([^\s,;]+)] with [re.IGNORECASE] *)
Definition re_keyword_token (keyword : str) : regex :=
  Seq (LitCI keyword)
 (Seq (Rep true 1 is_space)
      (Group (Rep true 1 (fun c => negb (is_space c || char_in (lit ",;") c))))).

End SuggesterPatterns.

Section Suggester.
Context {rt : Runtime}.

(** The functions of [re] raise [TypeError] unless the text is a string. *)
Definition text_arg (sql : option str) : Exc str :=
  match sql with
  | Some s => Ok s
  | None => Raise TypeError
  end.

Definition lstrip (s : str) : str :=
  (fix go (s : str) : str :=
     match s with
     | c :: s' => if is_space c then go s' else s
     | [] => []
     end) s.

(** [s.strip()] *)
Definition strip (s : str) : str := rev (lstrip (rev (lstrip s))).

Definition _extract_where_columns (sql : option str) : Exc (list str) :=
  let columns := [] in
  text <- text_arg sql ;;
  match re_search re_where_ci text with
  | Some where_match =>
    let where_clause := group1 where_match in
    where_clause <- index0 (re_split re_order_or_group where_clause) ;;
    let tokens := re_findall re_compared_ident where_clause in
    Ok (columns ++ tokens)
  | None => Ok columns
  end.

Definition _extract_order_columns (sql : option str) : Exc (list str) :=
  let columns := [] in
  text <- text_arg sql ;;
  match re_search re_order_by text with
  | Some order_match =>
    let order_clause := group1 order_match in
    let tokens := re_findall re_ident order_clause in
    Ok (columns ++ tokens)
  | None => Ok columns
  end.

Definition _extract_join_columns (sql : option str) : Exc (list str) :=
  let columns := [] in
  text <- text_arg sql ;;
  let join_match := re_findall re_on text in
  Ok (fold_left (fun columns m => columns ++ re_findall re_ident m) join_match columns).

Definition _extract_table_names (sql : option str) : Exc (list str) :=
  let tables := [] in
  let keywords := [lit "FROM"; lit "JOIN"; lit "INTO"; lit "UPDATE"; lit "TABLE"] in
  text <- text_arg sql ;;
  let tables :=
    fold_left (fun tables keyword =>
      let matches := re_findall (re_keyword_token keyword) text in
      fold_left (fun tables m =>
        let table := strip_chars ([chr "`"; dquote] ++ lit "[]") m in
        if negb (str_eqb table [])
           && negb (str_in (str_upper table)
                      [lit "WHERE"; lit "ON"; lit "SELECT"; lit "AS"])
        then tables ++ [table]
        else tables) matches tables) keywords tables in
  Ok (list_of_set tables).

Definition _suggest_index_optimization (query_info : SlowQueryInfo)
    (problem : QueryProblem) : Exc OptimizationSuggestion :=
  let sql := query_text query_info in
  where_columns <- _extract_where_columns sql ;;
  order_columns <- _extract_order_columns sql ;;
  join_columns <- _extract_join_columns sql ;;
  let columns := where_columns ++ order_columns ++ join_columns in
  let columns := list_of_set columns in
  let columns := match columns with [] => [lit "相关列"] | _ => columns end in
  let index_create :=
    nl ++ lit "-- 为表添加索引建议" ++ nl
       ++ lit "CREATE INDEX idx_optimization ON your_table ("
       ++ join (lit ", ") columns ++ lit ");" ++ nl in
  Ok {|
    title := lit "添加索引优化查询";
    suggestion_description :=
      lit "查询执行时间过长（" ++ format_2f (execution_time query_info)
        ++ lit "s），建议为相关列添加索引";
    priority := lit "HIGH";
    category := lit "INDEX";
    original_sql := sql;
    suggested_sql := Some (strip index_create);
    estimated_improvement := Some (lit "预计可提升 50%-90% 的查询性能");
    implementation_notes :=
      Some (lit "1. 确认 " ++ join (lit ", ") columns ++ lit " 列的选择性" ++ nl
              ++ lit "2. 考虑创建复合索引" ++ nl ++ lit "3. 分析索引的使用频率") |}.

Definition _suggest_specific_columns (query_info : SlowQueryInfo)
    (problem : QueryProblem) : Exc OptimizationSuggestion :=
  let sql := query_text query_info in
  tables <- _extract_table_names sql ;;
  let suggested_sql :=
    match tables with
    | table :: _ =>
      lit "-- 建议指定具体列名" ++ nl ++ lit "SELECT col1, col2, col3 FROM " ++ table
        ++ lit " WHERE ...;"
    | [] =>
      lit "-- 建议指定具体列名" ++ nl
        ++ lit "SELECT col1, col2, col3 FROM your_table WHERE ...;"
    end in
  Ok {|
    title := lit "避免使用 SELECT *";
    suggestion_description := lit "SELECT * 会返回所有列，增加 I/O 和网络传输开销";
    priority := lit "MEDIUM";
    category := lit "QUERY";
    original_sql := sql;
    suggested_sql := Some (strip suggested_sql);
    estimated_improvement := Some (lit "减少 30%-70% 的数据传输量");
    implementation_notes :=
      Some (lit "1. 只选择需要的列" ++ nl ++ lit "2. 避免返回大字段（如 TEXT/BLOB）" ++ nl
              ++ lit "3. 可以减少内存使用") |}.

Definition _suggest_like_optimization (query_info : SlowQueryInfo)
    (problem : QueryProblem) : Exc OptimizationSuggestion :=
  let sql := query_text query_info in
  text <- text_arg sql ;;
  let suggested_sql := re_sub re_like_rewrite (lit "LIKE '") text in
  Ok {|
    title := lit "优化 LIKE 查询";
    suggestion_description := lit "LIKE 使用前缀通配符（%xxx）无法使用索引";
    priority := lit "HIGH";
    category := lit "QUERY";
    original_sql := sql;
    suggested_sql := Some suggested_sql;
    estimated_improvement := Some (lit "索引命中率从 0% 提升到接近 100%");
    implementation_notes :=
      Some (lit "1. 使用后缀通配符（xxx%）" ++ nl ++ lit "2. 或者考虑全文索引" ++ nl
              ++ lit "3. 或者使用倒排索引") |}.

Definition _suggest_or_replacement (query_info : SlowQueryInfo)
    (problem : QueryProblem) : Exc OptimizationSuggestion :=
  let sql := query_text query_info in
  let suggested_sql :=
    lit "-- 建议使用 UNION ALL 替代 OR" ++ nl
      ++ lit "SELECT * FROM table1 WHERE condition1" ++ nl
      ++ lit "UNION ALL" ++ nl
      ++ lit "SELECT * FROM table1 WHERE condition2;" ++ nl in
  Ok {|
    title := lit "用 UNION ALL 替代 OR";
    suggestion_description := lit "OR 条件可能导致索引失效，使用 UNION ALL 可能更高效";
    priority := lit "LOW";
    category := lit "QUERY";
    original_sql := sql;
    suggested_sql := Some (strip suggested_sql);
    estimated_improvement := Some (lit "索引命中率可能提升 20%-50%");
    implementation_notes :=
      Some (lit "1. 测试两种方式的性能" ++ nl ++ lit "2. 确保条件互斥时使用 UNION ALL" ++ nl
              ++ lit "3. 条件可能重叠时使用 UNION") |}.

Definition _suggest_function_optimization (query_info : SlowQueryInfo)
    (problem : QueryProblem) : Exc OptimizationSuggestion :=
  let sql := query_text query_info in
  let suggested_sql :=
    lit "-- 示例：将函数移到比较符号另一侧" ++ nl
      ++ lit "-- 原始: WHERE YEAR(created_at) = 2023" ++ nl
      ++ lit "-- 优化: WHERE created_at >= '2023-01-01' AND created_at < '2024-01-01'"
      ++ nl in
  Ok {|
    title := lit "避免 WHERE 子句中使用函数";
    suggestion_description := lit "函数会阻止索引使用，建议改写查询逻辑";
    priority := lit "MEDIUM";
    category := lit "QUERY";
    original_sql := sql;
    suggested_sql := Some (strip suggested_sql);
    estimated_improvement := Some (lit "索引命中率可从 0% 提升到 100%");
    implementation_notes :=
      Some (lit "1. 将函数应用到常量上" ++ nl ++ lit "2. 使用范围查询代替函数" ++ nl
              ++ lit "3. 考虑创建计算列索引") |}.

Definition _suggest_row_reduction (query_info : SlowQueryInfo)
    (problem : QueryProblem) : Exc OptimizationSuggestion :=
  let sql := query_text query_info in
  let suggested_sql :=
    lit "-- 建议优化查询减少扫描行数" ++ nl
      ++ lit "-- 当前扫描行数: " ++ scan_rows_formatted query_info ++ nl
      ++ nl
      ++ lit "1. 添加更精确的 WHERE 条件" ++ nl
      ++ lit "2. 利用分区裁剪" ++ nl
      ++ lit "3. 使用索引覆盖" ++ nl
      ++ lit "4. 考虑数据分区策略" ++ nl in
  Ok {|
    title := lit "减少扫描行数";
    suggestion_description :=
      lit "当前扫描 " ++ scan_rows_formatted query_info ++ lit " 行，远超建议阈值";
    priority := lit "HIGH";
    category := lit "QUERY";
    original_sql := sql;
    suggested_sql := Some (strip suggested_sql);
    estimated_improvement := Some (lit "可减少 50%-99% 的扫描行数");
    implementation_notes :=
      Some (lit "1. 分析查询计划确定瓶颈" ++ nl ++ lit "2. 添加合适的 WHERE 条件" ++ nl
              ++ lit "3. 创建复合索引") |}.

Definition _suggest_cte_or_join (query_info : SlowQueryInfo)
    (problem : QueryProblem) : Exc OptimizationSuggestion :=
  let sql := query_text query_info in
  let suggested_sql :=
    lit "-- 建议使用 CTE (WITH 子句) 或 JOIN" ++ nl
      ++ lit "-- CTE 示例:" ++ nl
      ++ lit "WITH cte1 AS (" ++ nl
      ++ lit "    SELECT ... FROM table1 WHERE ..." ++ nl
      ++ lit ")," ++ nl
      ++ lit "cte2 AS (" ++ nl
      ++ lit "    SELECT ... FROM table2 WHERE ..." ++ nl
      ++ lit ")" ++ nl
      ++ lit "SELECT ... FROM cte1 JOIN cte2 ON ...;" ++ nl in
  Ok {|
    title := lit "优化子查询为 CTE 或 JOIN";
    suggestion_description := lit "子查询可能导致性能问题，考虑使用 CTE 或 JOIN";
    priority := lit "MEDIUM";
    category := lit "QUERY";
    original_sql := sql;
    suggested_sql := Some (strip suggested_sql);
    estimated_improvement := Some (lit "预计提升 20%-60% 的性能");
    implementation_notes :=
      Some (lit "1. 评估子查询是否可转为 JOIN" ++ nl ++ lit "2. 使用 CTE 提高可读性" ++ nl
              ++ lit "3. 测试优化前后性能") |}.

(** The result is [None] when no branch of the [if]/[elif] chain on
    [problem_type.name] is taken. *)
Definition _generate_suggestion_for_problem (query_info : SlowQueryInfo)
    (problem : QueryProblem) : Exc (option OptimizationSuggestion) :=
  let problem_type := problem_type problem in
  let sql := query_text query_info in
  if str_eqb (ProblemType_name problem_type) (lit "FULL_TABLE_SCAN") then
    s <- _suggest_index_optimization query_info problem ;; Ok (Some s)
  else if str_eqb (ProblemType_name problem_type) (lit "SELECT_STAR") then
    s <- _suggest_specific_columns query_info problem ;; Ok (Some s)
  else if str_eqb (ProblemType_name problem_type) (lit "LIKE_PREFIX_WILDCARD") then
    s <- _suggest_like_optimization query_info problem ;; Ok (Some s)
  else if str_eqb (ProblemType_name problem_type) (lit "OR_CONDITION") then
    s <- _suggest_or_replacement query_info problem ;; Ok (Some s)
  else if str_eqb (ProblemType_name problem_type) (lit "FUNCTION_IN_WHERE") then
    s <- _suggest_function_optimization query_info problem ;; Ok (Some s)
  else if str_eqb (ProblemType_name problem_type) (lit "TOO_MANY_ROWS") then
    s <- _suggest_row_reduction query_info problem ;; Ok (Some s)
  else if str_eqb (ProblemType_name problem_type) (lit "SUBQUERY_INEFFICIENT") then
    s <- _suggest_cte_or_join query_info problem ;; Ok (Some s)
  else Ok None.

(** The loop of [generate_suggestions], [suggestions] being the list built
    so far. *)
Fixpoint generate_loop (query_info : SlowQueryInfo) (problems : list QueryProblem)
    (suggestions : list OptimizationSuggestion) : Exc (list OptimizationSuggestion) :=
  match problems with
  | [] => Ok suggestions
  | problem :: rest =>
    suggestion <- _generate_suggestion_for_problem query_info problem ;;
    match suggestion with
    | Some s => generate_loop query_info rest (suggestions ++ [s])
    | None => generate_loop query_info rest suggestions
    end
  end.

Definition generate_suggestions (query_info : SlowQueryInfo)
    (problems : list QueryProblem) : Exc (list OptimizationSuggestion) :=
  let suggestions := [] in
  generate_loop query_info problems suggestions.

End Suggester.

(* ================================================================== *)
(** ** A run time for the examples

    ASCII text only (no character outside ASCII has a case, is a space or
    is alphanumeric), sets listed in order of first occurrence, [.2f] by
    rounding the binary value half to even, and a [sqlparse.parse] that
    returns the text as one statement unless the text is empty. *)

Module Sample.

Definition str_eq_dec : forall a b : str, {a = b} + {a <> b} :=
  list_eq_dec N.eq_dec.

(** [m * 2^e] rounded half to even. *)
Definition round_scaled (m e : Z) : Z :=
  if (0 <=? e)%Z then (m * 2 ^ e)%Z
  else
    let d := (2 ^ (- e))%Z in
    let q := (m / d)%Z in
    let r := (m mod d)%Z in
    if (d <? 2 * r)%Z then (q + 1)%Z
    else if (d =? 2 * r)%Z && Z.odd q then (q + 1)%Z
    else q.

Definition two_digits (n : Z) : str :=
  if (n <? 10)%Z then lit "0" ++ str_of_Z n else str_of_Z n.

Definition fmt_2f (x : float) : str :=
  let sign (s : bool) := if s then lit "-" else [] in
  match Prim2SF x with
  | S754_nan => lit "nan"
  | S754_infinity s => sign s ++ lit "inf"
  | S754_zero s => sign s ++ lit "0.00"
  | S754_finite s m e =>
    let n := round_scaled (Zpos m * 100) e in
    sign s ++ str_of_Z (n / 100) ++ lit "." ++ two_digits (n mod 100)
  end.

Definition float_of_Z (n : Z) : spec_float :=
  binary_normalize prec emax n 0 false.

Definition truediv (a b : Z) : float :=
  SF2Prim (SFdiv prec emax (float_of_Z a) (float_of_Z b)).

Definition parse (text : str) : Exc (list str) :=
  match text with
  | [] => Ok []
  | _ => Ok [text]
  end.

Definition runtime : Runtime := {|
  unicode_upper c := [c];
  unicode_isspace _ := false;
  unicode_isalnum _ := false;
  unicode_ignorecase _ _ := false;
  list_of_set := nodup str_eq_dec;
  list_of_set_In := nodup_In str_eq_dec;
  list_of_set_NoDup := NoDup_nodup str_eq_dec;
  format_2f := fmt_2f;
  int_truediv := truediv;
  Statement := str;
  sqlparse_parse := parse
|}.

(** A record with the given text, duration and scan counters. *)
Definition record (text : option str) (seconds : float) (rows bytes memory : Z)
    : SlowQueryInfo := {|
  query_id := lit "q1";
  query_text := text;
  database := lit "db";
  user := lit "u";
  execution_time := seconds;
  scan_rows := rows;
  scan_bytes := bytes;
  memory_used := memory;
  cpu_time := 0%float;
  start_time := 0%Z;
  end_time := 0%Z;
  peak_memory := 0%Z;
  rows_returned := 0%Z
|}.

End Sample.

(* ================================================================== *)
(** ** query_analyzer.py: the type of a statement *)

Inductive QueryType :=
| SELECT
| INSERT
| UPDATE
| DELETE
| CREATE
| ALTER
| DROP
| SHOW
| EXPLAIN
| OTHER.

(** [query_type.value] *)
Definition QueryType_value (t : QueryType) : str :=
  match t with
  | SELECT => lit "SELECT"
  | INSERT => lit "INSERT"
  | UPDATE => lit "UPDATE"
  | DELETE => lit "DELETE"
  | CREATE => lit "CREATE"
  | ALTER => lit "ALTER"
  | DROP => lit "DROP"
  | SHOW => lit "SHOW"
  | EXPLAIN => lit "EXPLAIN"
  | OTHER => lit "OTHER"
  end.

Section QueryTypes.
Context {rt : Runtime}.

Definition get_query_type (query_text : str) : QueryType :=
  let text := str_upper (strip query_text) in
  if startswith (lit "SELECT") text then SELECT
  else if startswith (lit "INSERT") text then INSERT
  else if startswith (lit "UPDATE") text then UPDATE
  else if startswith (lit "DELETE") text then DELETE
  else if startswith (lit "CREATE") text then CREATE
  else if startswith (lit "ALTER") text then ALTER
  else if startswith (lit "DROP") text then DROP
  else if startswith (lit "SHOW") text then SHOW
  else if startswith (lit "EXPLAIN") text then EXPLAIN
  else OTHER.

End QueryTypes.

(** [extract_tables] walks the tokens of the parsed statement before it
    searches the text.  The walk is [sqlparse]'s: it yields the tokens or
    raises. *)
Record Token := {
  ttype_is_None : bool;
  value : str
}.

Class Tokens {rt : Runtime} := {
  (** [list(parsed.flatten())] *)
  flatten : Statement -> Exc (list Token)
}.

Section AnalyzerTables.
Context {rt : Runtime} {tk : Tokens}.

(** [{keyword}\s+([^\s,;]+)], letter case as written *)
Definition re_keyword_token_cs (keyword : str) : regex :=
  Seq (Lit keyword)
 (Seq (Rep true 1 is_space)
      (Group (Rep true 1 (fun c => negb (is_space c || char_in (lit ",;") c))))).

(** The loop over the tokens changes nothing: its body is [continue]. *)
Definition token_loop (keywords : list str) (tokens : list Token) : unit :=
  fold_left (fun _ token =>
    if ttype_is_None token && str_in (str_upper (value token)) keywords
    then tt else tt) tokens tt.

(** Everything that can raise stands before the first [tables.append], so
    the handler always finds [tables] empty. *)
Definition extract_tables (query_text : option str) : list str :=
  let tables := [] in
  let tables :=
    match
      (stmts <- parse_method query_text ;;
       parsed <- index0 stmts ;;
       let keywords := [lit "FROM"; lit "JOIN"; lit "INTO"; lit "UPDATE"; lit "TABLE"] in
       tokens <- flatten parsed ;;
       let _ := token_loop keywords tokens in
       text <- upper_method query_text ;;
       Ok (fold_left (fun tables keyword =>
             let matches := re_findall (re_keyword_token_cs keyword) text in
             fold_left (fun tables m =>
               let table := strip_chars ([chr "`"; dquote] ++ lit "[]") m in
               if negb (str_eqb table [])
                  && negb (str_in (str_upper table)
                             [lit "WHERE"; lit "ON"; lit "SELECT"; lit "AS"])
               then tables ++ [table]
               else tables) matches tables) keywords tables))
    with
    | Ok tables => tables
    | Raise e => tables
    end in
  list_of_set tables.

End AnalyzerTables.

(* ================================================================== *)
(** ** slow_query_collector.py: [SlowQueryCollector] *)

(** The statement [collect_slow_queries] hands to the connector, with its
    parameters (the part of the function before [execute_query]).  [now] is
    [datetime.now()], in seconds. *)
Inductive sql_param :=
| datetime_param (t : datetime)
| float_param (x : float)
| str_param (s : str).

Definition collect_slow_queries_statement (now : datetime) (time_range_hours : Z)
    (min_execution_time : float) (database_filter user_filter : option str)
    : str * list sql_param :=
  let start_time := (now - time_range_hours * 3600)%Z in
  let query := join nl
    [lit "";
     lit "        SELECT";
     lit "            query_id,";
     lit "            query_text,";
     lit "            database,";
     lit "            user,";
     lit "            query_time_seconds as execution_time,";
     lit "            scan_rows,";
     lit "            scan_bytes,";
     lit "            memory_used_bytes as memory_used,";
     lit "            cpu_time_ns / 1000000000 as cpu_time,";
     lit "            start_time,";
     lit "            end_time,";
     lit "            peak_memory_bytes as peak_memory,";
     lit "            rows_returned";
     lit "        FROM information_schema.query_log";
     lit "        WHERE start_time >= %s";
     lit "          AND query_time_seconds >= %s";
     lit "          AND query_text IS NOT NULL";
     lit "          AND LENGTH(query_text) > 10";
     lit "        "] in
  let params := [datetime_param start_time; float_param min_execution_time] in
  let '(query, params) :=
    match database_filter with
    | Some (c :: s) =>
      (query ++ lit " AND database = %s", params ++ [str_param (c :: s)])
    | _ => (query, params)
    end in
  let '(query, params) :=
    match user_filter with
    | Some (c :: s) =>
      (query ++ lit " AND user = %s", params ++ [str_param (c :: s)])
    | _ => (query, params)
    end in
  let query := query ++ lit " ORDER BY query_time_seconds DESC LIMIT 1000" in
  (query, params).

(** A number of the statistics: [0] where there is no query, a float
    otherwise. *)
Inductive number :=
| Int (n : Z)
| Float (x : float).

(** The dictionary [get_query_statistics] returns. *)
Record Statistics := {
  total_queries : Z;
  avg_execution_time : number;
  max_execution_time : number;
  total_scan_rows : Z;
  total_scan_bytes : Z;
  severity_distribution : list (str * Z)
}.

(** The sum of a sequence of floats and the division of a float by an
    integer are Python's (how [sum] rounds depends on its version). *)
Class FloatArith := {
  float_sum : list float -> float;
  float_truediv : float -> Z -> float
}.

(** A [dict] with string keys, in the order of insertion. *)
Section Dict.
Context {V : Type}.

Fixpoint dict_lookup (d : list (str * V)) (key : str) : option V :=
  match d with
  | [] => None
  | (k, v) :: d' => if str_eqb k key then Some v else dict_lookup d' key
  end.

(** [d[key] = v] *)
Fixpoint dict_set (d : list (str * V)) (key : str) (v : V) : list (str * V) :=
  match d with
  | [] => [(key, v)]
  | (k, x) :: d' =>
    if str_eqb k key then (k, v) :: d' else (k, x) :: dict_set d' key v
  end.

(** [d.get(key, default)] *)
Definition dict_get_default (d : list (str * V)) (key : str) (default : V) : V :=
  match dict_lookup d key with
  | Some v => v
  | None => default
  end.

End Dict.

(** [max] of a sequence of floats that begins with [x]: a later element
    replaces the maximum when it is greater. *)
Definition float_max (x : float) (xs : list float) : float :=
  fold_left (fun m y => if (m <? y)%float then y else m) xs x.

Section CollectorFunctions.
Context {rt : Runtime} {fa : FloatArith}.

Definition get_query_statistics (slow_queries : list SlowQueryInfo) : Statistics :=
  match slow_queries with
  | [] =>
    {| total_queries := 0;
       avg_execution_time := Int 0;
       max_execution_time := Int 0;
       total_scan_rows := 0;
       total_scan_bytes := 0;
       severity_distribution := [] |}
  | q0 :: rest =>
    let total_time := float_sum (map execution_time slow_queries) in
    let max_time := float_max (execution_time q0) (map execution_time rest) in
    let total_scan_rows := fold_left Z.add (map scan_rows slow_queries) 0%Z in
    let total_scan_bytes := fold_left Z.add (map scan_bytes slow_queries) 0%Z in
    let severity_distribution :=
      fold_left (fun severity_distribution q =>
        let severity := severity q in
        dict_set severity_distribution severity
          (dict_get_default severity_distribution severity 0 + 1)%Z)
        slow_queries [] in
    {| total_queries := Z.of_nat (List.length slow_queries);
       avg_execution_time :=
         Float (float_truediv total_time (Z.of_nat (List.length slow_queries)));
       max_execution_time := Float max_time;
       total_scan_rows := total_scan_rows;
       total_scan_bytes := total_scan_bytes;
       severity_distribution := severity_distribution |}
  end.

(** The comprehension of [filter_by_pattern]: [q.query_text.upper()] is
    evaluated for every query in turn. *)
Fixpoint filter_loop (pattern : str) (queries : list SlowQueryInfo)
    : Exc (list SlowQueryInfo) :=
  match queries with
  | [] => Ok []
  | q :: rest =>
    text <- upper_method (query_text q) ;;
    filtered <- filter_loop pattern rest ;;
    Ok (if contains pattern text then q :: filtered else filtered)
  end.

Definition filter_by_pattern (queries : list SlowQueryInfo) (pattern : option str)
    : Exc (list SlowQueryInfo) :=
  pattern <- upper_method pattern ;;
  filter_loop pattern queries.

End CollectorFunctions.

(* ================================================================== *)
(** ** starrocks_slow_query_analyzer.py *)

(** The entries of the dictionary [analyze_specific_sql] returns. *)
Record ProblemEntry := {
  entry_type : str;
  entry_severity : str;
  entry_description : str;
  entry_suggestion : str
}.

Record SuggestionEntry := {
  entry_title : str;
  entry_priority : str;
  entry_text : str;
  entry_suggested_sql : option str;
  entry_estimated_improvement : option str;
  entry_implementation_notes : option str
}.

Record SqlAnalysis := {
  analysis_sql : option str;
  analysis_problems : list ProblemEntry;
  analysis_suggestions : list SuggestionEntry
}.

Section MainProgram.
Context {rt : Runtime}.


(** [now1] and [now2] are the two readings of [datetime.now()], in
    seconds. *)
Definition analyze_specific_sql (analyzer : QueryAnalyzer) (now1 now2 : datetime)
    (sql : option str) : Exc SqlAnalysis :=
  let query_info := {|
    query_id := lit "manual_analysis";
    query_text := sql;
    database := [];
    user := lit "manual";
    execution_time := 0;
    scan_rows := 0;
    scan_bytes := 0;
    memory_used := 0;
    cpu_time := 0;
    start_time := now1;
    end_time := (now2 + 1)%Z;
    peak_memory := 0;
    rows_returned := 0 |} in
  problems <- analyze_query analyzer query_info None ;;
  suggestions <- generate_suggestions query_info problems ;;
  Ok {|
    analysis_sql := sql;
    analysis_problems :=
      map (fun p => {|
        entry_type := ProblemType_value (problem_type p);
        entry_severity := problem_severity p;
        entry_description := description p;
        entry_suggestion := suggestion p |}) problems;
    analysis_suggestions :=
      map (fun s => {|
        entry_title := title s;
        entry_priority := priority s;
        entry_text := suggestion_description s;
        entry_suggested_sql := suggested_sql s;
        entry_estimated_improvement := estimated_improvement s;
        entry_implementation_notes := implementation_notes s |}) suggestions |}.

End MainProgram.

(** Run-time instances for the examples: a statement has no tokens, floats
    are added from the left and divided after the integer is rounded to a
    float. *)
Module SampleMore.

#[export] Instance tokens : @Tokens Sample.runtime := {|
  flatten := fun _ => Ok []
|}.

#[export] Instance float_arith : FloatArith := {|
  float_sum := fun xs => fold_left add xs 0%float;
  float_truediv := fun x n => (x / SF2Prim (Sample.float_of_Z n))%float
|}.

End SampleMore.

(* ================================================================== *)
(** ** What a pattern matches

    [matches r w g g']: the text [w] is matched by [r], group 1 holding [g]
    before and [g'] after; [\b] and [$] match the empty text (what stands
    around it is not recorded here). *)

Fixpoint matches (r : regex) (w : str) (g g' : option str) : Prop :=
  match r with
  | Eps | WordB | EndS => w = [] /\ g' = g
  | Chr p => exists c, w = [c] /\ p c = true /\ g' = g
  | Seq r1 r2 =>
    exists w1 w2 g1, w = w1 ++ w2 /\ matches r1 w1 g g1 /\ matches r2 w2 g1 g'
  | Alt r1 r2 => matches r1 w g g' \/ matches r2 w g g'
  | Rep _ lo p => lo <= List.length w /\ forallb p w = true /\ g' = g
  | Group r1 => (exists g1, matches r1 w g g1) /\ g' = Some w
  end.

(* ================================================================== *)
(** ** Vocabulary of the further properties *)

(** [[a-zA-Z_][a-zA-Z0-9_]*] *)
Definition is_identifier (w : str) : bool :=
  match w with
  | c :: w' => ident_start c && forallb ident_char w'
  | [] => false
  end.

(** The characters [strip] of a table name removes at its ends, and the
    words a table name is never allowed to be. *)
Definition quote_chars : str := [chr "`"; dquote] ++ lit "[]".
Definition not_tables : list str := [lit "WHERE"; lit "ON"; lit "SELECT"; lit "AS"].

Section FurtherVocabulary.
Context {rt : Runtime}.

(** A character of a table token: no white space, comma or semicolon. *)
Definition token_char (c : char) : bool :=
  negb (is_space c || char_in (lit ",;") c).

(** What holds of every table name [_extract_table_names] returns. *)
Definition table_name_ok (t : str) : Prop :=
  t <> [] /\
  forallb token_char t = true /\
  str_in (str_upper t) not_tables = false /\
  (forall c, hd_error t = Some c -> char_in quote_chars c = false) /\
  (forall c, hd_error (rev t) = Some c -> char_in quote_chars c = false).

(** The text [get_query_type] tests. *)
Definition normalized (query_text : str) : str := str_upper (strip query_text).

End FurtherVocabulary.

(** The statement templates of the index and SELECT-star suggestions, and
    the column the index template names when no column was found. *)
Definition placeholder_column : str := lit "相关列".

Definition index_template (columns : list str) : str :=
  lit "-- 为表添加索引建议" ++ nl
    ++ lit "CREATE INDEX idx_optimization ON your_table ("
    ++ join (lit ", ") columns ++ lit ");".

Definition select_template (table : str) : str :=
  lit "-- 建议指定具体列名" ++ nl ++ lit "SELECT col1, col2, col3 FROM " ++ table
    ++ lit " WHERE ...;".

(** The keyword [get_query_type] looks for, for each type but OTHER. *)
Definition QueryType_keyword (t : QueryType) : option str :=
  match t with
  | OTHER => None
  | _ => Some (QueryType_value t)
  end.

Definition statement_keywords : list str :=
  [lit "SELECT"; lit "INSERT"; lit "UPDATE"; lit "DELETE"; lit "CREATE";
   lit "ALTER"; lit "DROP"; lit "SHOW"; lit "EXPLAIN"].

(** A match object of a pattern in a text: its three parts make up the
    text, and its middle part is matched by the pattern. *)
Definition match_of (r : regex) (s : str) (m : match_obj) : Prop :=
  s = m_before m ++ m_text m ++ m_after m /\
  matches r (m_text m) None (m_group1 m).


(* ================================================================== *)
(** * Vocabulary of the properties *)

(** A problem of type [ty] and severity [sev]; a problem of type [ty]. *)
Definition is_problem (ty : ProblemType) (sev : str) (p : QueryProblem) : Prop :=
  problem_type p = ty /\ problem_severity p = sev.

Definition has_type (ty : ProblemType) (p : QueryProblem) : Prop :=
  problem_type p = ty.

(** The types the execution-time, scan-volume and plan passes report. *)
Definition metric_type (p : QueryProblem) : Prop :=
  In (problem_type p) [FULL_TABLE_SCAN; TOO_MANY_ROWS; MEMORY_INTENSIVE].

(** The list [if c: problems.append(p)] adds. *)
Definition emit (c : bool) (p : QueryProblem) : list QueryProblem :=
  if c then [p] else [].

(** The seven types the specification lists for the suggester, and the
    category it gives for each. *)
Definition recognized_types : list ProblemType :=
  [FULL_TABLE_SCAN; SELECT_STAR; LIKE_PREFIX_WILDCARD; OR_CONDITION;
   FUNCTION_IN_WHERE; TOO_MANY_ROWS; SUBQUERY_INEFFICIENT].

Definition ProblemType_eqb (a b : ProblemType) : bool :=
  match a, b with
  | FULL_TABLE_SCAN, FULL_TABLE_SCAN | NO_INDEX, NO_INDEX
  | TOO_MANY_ROWS, TOO_MANY_ROWS | MEMORY_INTENSIVE, MEMORY_INTENSIVE
  | JOIN_INEFFICIENT, JOIN_INEFFICIENT
  | SUBQUERY_INEFFICIENT, SUBQUERY_INEFFICIENT
  | ORDERBY_EXPENSIVE, ORDERBY_EXPENSIVE | GROUPBY_EXPENSIVE, GROUPBY_EXPENSIVE
  | LARGE_RESULT_SET, LARGE_RESULT_SET | NO_WHERE_CLAUSE, NO_WHERE_CLAUSE
  | SELECT_STAR, SELECT_STAR | OR_CONDITION, OR_CONDITION
  | LIKE_PREFIX_WILDCARD, LIKE_PREFIX_WILDCARD
  | FUNCTION_IN_WHERE, FUNCTION_IN_WHERE => true
  | _, _ => false
  end.

Definition recognized (t : ProblemType) : bool :=
  existsb (ProblemType_eqb t) recognized_types.

Definition is_recognized (p : QueryProblem) : bool := recognized (problem_type p).

Definition category_of (t : ProblemType) : str :=
  match t with
  | FULL_TABLE_SCAN => lit "INDEX"
  | _ => lit "QUERY"
  end.

(** What a handler returns: a suggestion of the category [cat] that carries
    the text of the record. *)
Definition yields (cat : str) (text : option str) (r : Exc OptimizationSuggestion)
    : Prop :=
  exists s, r = Ok s /\ category s = cat /\ original_sql s = text.




(** The texts of the scenarios. *)
Definition sql_customers : str := lit "SELECT name FROM customers".
Definition sql_like_smith : str := lit "SELECT id FROM t WHERE name LIKE '%smith'".
Definition sql_derived_table : str := lit "SELECT * FROM (SELECT id FROM t) t".
Definition sql_derived_table_spaced : str := lit "SELECT * FROM ( SELECT id FROM t) t".

Section Vocabulary.
Context {rt : Runtime}.

(** The problems of the structure pass on a text, by what [sqlparse] made
    of it. *)
Definition structure_result (text : str) : list QueryProblem :=
  match sqlparse_parse text with
  | Ok (_ :: _) => structure_checks (str_upper text) []
  | _ => []
  end.

(** The problems of the plan pass. *)
Definition plan_result (plan : option Plan) : list QueryProblem :=
  match plan with
  | Some p => if plan_truthy p then _analyze_execution_plan p else []
  | None => []
  end.

(** The conditions of the fourth and fifth checks of the structure pass. *)
Definition function_in_where (sql : str) : bool :=
  match re_search re_where sql with
  | Some where_match => is_some (re_search re_function_call (group1 where_match))
  | None => false
  end.

Definition lacks_where (sql : str) : bool :=
  startswith (lit "SELECT") sql && negb (contains (lit "WHERE") sql)
    && negb (contains (lit "JOIN") sql)
    && negb (is_some (re_search re_aggregate sql)).

(** The pairing of a recognized problem with its suggestion. *)
Definition suggestion_of (q : SlowQueryInfo) (p : QueryProblem)
    (s : OptimizationSuggestion) : Prop :=
  _generate_suggestion_for_problem q p = Ok (Some s) /\
  category s = category_of (problem_type p).

End Vocabulary.

(** The types [analyze_query] can report, and the number of problems of
    one type in a list. *)
Definition reported_types : list ProblemType :=
  [FULL_TABLE_SCAN; TOO_MANY_ROWS; MEMORY_INTENSIVE; SELECT_STAR; OR_CONDITION;
   LIKE_PREFIX_WILDCARD; FUNCTION_IN_WHERE; NO_WHERE_CLAUSE; SUBQUERY_INEFFICIENT].

Definition count_type (ty : ProblemType) (l : list QueryProblem) : nat :=
  List.length (filter (fun p => ProblemType_eqb (problem_type p) ty) l).

(** How often [analyze_query] can report a type: the execution-time pass
    and the plan pass both report a full table scan, the scan-volume pass
    reports too many rows for rows and for bytes. *)
Definition max_reports (ty : ProblemType) : nat :=
  match ty with
  | FULL_TABLE_SCAN | TOO_MANY_ROWS => 2
  | MEMORY_INTENSIVE | SELECT_STAR | OR_CONDITION | LIKE_PREFIX_WILDCARD
  | FUNCTION_IN_WHERE | NO_WHERE_CLAUSE | SUBQUERY_INEFFICIENT => 1
  | NO_INDEX | JOIN_INEFFICIENT | ORDERBY_EXPENSIVE | GROUPBY_EXPENSIVE
  | LARGE_RESULT_SET => 0
  end.

(** A statement with every problem the analyzer knows, and a plan with a
    scan. *)
Definition sql_everything : str :=
  lit "SELECT * FROM (x SELECT 1) WHERE UPPER(a) = 'X' OR b LIKE '%y'".

Definition plan_scan : Plan := {| plan_truthy := true; plan_str := lit "olap_scan" |}.

(** The labels of [severity]. *)
Definition severity_labels : list str :=
  [lit "CRITICAL"; lit "HIGH"; lit "MEDIUM"; lit "LOW"].

Section CollectorVocabulary.
Context {rt : Runtime}.

(** The query has a text; its upper-cased text contains the upper-cased
    pattern. *)
Definition has_text (q : SlowQueryInfo) : bool := is_some (query_text q).

Definition text_contains (pattern : str) (q : SlowQueryInfo) : bool :=
  match query_text q with
  | Some text => contains (str_upper pattern) (str_upper text)
  | None => false
  end.

(** The number of queries of one severity. *)
Definition count_severity (label : str) (queries : list SlowQueryInfo) : nat :=
  List.length (filter (fun q => str_eqb (severity q) label) queries).

End CollectorVocabulary.

(** The sum of the counts of a distribution. *)
Definition sum_counts (d : list (str * Z)) : Z := fold_right Z.add 0%Z (map snd d).

(** The entries [analyze_specific_sql] makes of a problem and of a
    suggestion. *)
Definition problem_entry (p : QueryProblem) : ProblemEntry := {|
  entry_type := ProblemType_value (problem_type p);
  entry_severity := problem_severity p;
  entry_description := description p;
  entry_suggestion := suggestion p |}.

Definition suggestion_entry (s : OptimizationSuggestion) : SuggestionEntry := {|
  entry_title := title s;
  entry_priority := priority s;
  entry_text := suggestion_description s;
  entry_suggested_sql := suggested_sql s;
  entry_estimated_improvement := estimated_improvement s;
  entry_implementation_notes := implementation_notes s |}.

(** The truth value of an optional filter, and the number of places where
    a text occurs in another. *)
Definition truthy (s : option str) : bool :=
  match s with
  | Some (_ :: _) => true
  | _ => false
  end.

Fixpoint count_sub (p s : str) : nat :=
  (if startswith p s then 1 else 0)
  + match s with
    | [] => 0
    | _ :: s' => count_sub p s'
    end.

(** The types whose suggestion reads the text of the query. *)
Definition needs_text (t : ProblemType) : bool :=
  match t with
  | FULL_TABLE_SCAN | SELECT_STAR | LIKE_PREFIX_WILDCARD => true
  | _ => false
  end.

(* ================================================================== *)
(** * Properties *)

(** ** The order of binary64 values *)

Lemma SF_lt_le_trans (t a b : spec_float) :
  SFltb t a = true -> SFleb a b = true -> SFleb b t = false.
Proof.
  unfold SFltb, SFleb, SFcompare.
  destruct t as [st|st| |st mt et], a as [sa|sa| |sa ma ea], b as [sb|sb| |sb mb eb];
    try destruct st; try destruct sa; try destruct sb;
    try discriminate; try reflexivity;
    intros H1 H2;
    repeat match goal with
    | H : context [Z.compare ?x ?y] |- _ => destruct (Z.compare_spec x y)
    | |- context [Z.compare ?x ?y] => destruct (Z.compare_spec x y)
    end; try discriminate; try reflexivity; try lia; subst;
    change (PosDef.Pos.compare_cont Eq) with Pos.compare in *;
    repeat match goal with
    | H : context [Pos.compare ?x ?y] |- _ => destruct (Pos.compare_spec x y)
    | |- context [Pos.compare ?x ?y] => destruct (Pos.compare_spec x y)
    end; simpl in *; try discriminate; try reflexivity; try lia.
Qed.

(** [t < a <= b] excludes [b <= t]. *)
Lemma float_lt_le_trans (t a b : float) :
  (t <? a)%float = true -> (a <=? b)%float = true -> (b <=? t)%float = false.
Proof. rewrite ltb_spec, !leb_spec. apply SF_lt_le_trans. Qed.

(** ** The iteration of [re] over a text ends

    A match leaves a suffix of the text, and two searches in a row move on
    by one character at least: the fuel of [re_finditer] is never used
    up. *)

Section Iteration.
Context {rt : Runtime}.

Lemma rep_match_suffix {R} (greedy : bool) (p : char -> bool) (lo : nat)
    (k : option char -> str -> option R) :
  forall prev s x,
    rep_match greedy p lo k prev s = Some x ->
    exists prev' s', k prev' s' = Some x /\ List.length s' <= List.length s.
Proof.
  induction lo as [|lo IH].
  - intros prev s. revert prev.
    induction s as [|c s IHs]; intros prev x; cbn.
    + intros H. exists prev, []. auto.
    + destruct (p c); [|intros H; exists prev, (c :: s); auto].
      destruct greedy.
      * destruct ((fix more (prev0 : option char) (s0 : str) : option R :=
                     match s0 with
                     | [] => k prev0 s0
                     | c0 :: s' =>
                       if p c0
                       then if true
                            then match more (Some c0) s' with
                                 | Some x0 => Some x0
                                 | None => k prev0 s0
                                 end
                            else match k prev0 s0 with
                                 | Some x0 => Some x0
                                 | None => more (Some c0) s'
                                 end
                       else k prev0 s0
                     end) (Some c) s) as [y|] eqn:E.
        -- intros H. injection H as <-.
           destruct (IHs (Some c) y E) as [prev' [s' [Hk Hl]]].
           exists prev', s'. split; [exact Hk | cbn; lia].
        -- intros H. exists prev, (c :: s). auto.
      * destruct (k prev (c :: s)) as [y|] eqn:E.
        -- intros H. injection H as <-. exists prev, (c :: s). auto.
        -- intros H. destruct (IHs (Some c) x H) as [prev' [s' [Hk Hl]]].
           exists prev', s'. split; [exact Hk | cbn; lia].
  - intros prev [|c s] x; cbn; [discriminate|].
    destruct (p c); [|discriminate].
    intros H. destruct (IH (Some c) s x H) as [prev' [s' [Hk Hl]]].
    exists prev', s'. split; [exact Hk | cbn; lia].
Qed.

Lemma re_match_suffix {R} (r : regex) :
  forall (k : option char -> str -> option str -> option R) prev s g x,
    re_match r k prev s g = Some x ->
    exists prev' s' g', k prev' s' g' = Some x /\ List.length s' <= List.length s.
Proof.
  induction r as [|p|r1 IH1 r2 IH2|r1 IH1 r2 IH2|greedy lo p|r1 IH1| |];
    intros k prev s g x; cbn [re_match].
  - intros H. exists prev, s, g. auto.
  - destruct s as [|c s]; [discriminate|]. destruct (p c); [|discriminate].
    intros H. exists (Some c), s, g. split; [exact H | cbn; lia].
  - intros H. destruct (IH1 _ _ _ _ _ H) as [p1 [s1 [g1 [H1 L1]]]].
    destruct (IH2 _ _ _ _ _ H1) as [p2 [s2 [g2 [H2 L2]]]].
    exists p2, s2, g2. split; [exact H2 | lia].
  - destruct (re_match r1 k prev s g) as [y|] eqn:E.
    + intros H. injection H as <-. exact (IH1 _ _ _ _ _ E).
    + exact (IH2 _ _ _ _ _).
  - intros H. destruct (rep_match_suffix _ _ _ _ _ _ _ H) as [p' [s' [Hk L]]].
    exists p', s', g. auto.
  - intros H. destruct (IH1 _ _ _ _ _ H) as [p1 [s1 [g1 [H1 L1]]]].
    eexists p1, s1, _. split; [exact H1 | exact L1].
  - destruct (xorb _ _); [|discriminate]. intros H. exists prev, s, g. auto.
  - destruct s as [|c [|c' s]]; [| |discriminate].
    + intros H. exists prev, [], g. auto.
    + destruct (c =? 10)%N; [|discriminate]. intros H. exists prev, [c], g. auto.
Qed.

Lemma match_here_suffix (r : regex) (prev : option char) (s s' : str)
    (g : option str) :
  match_here r prev s = Some (s', g) -> List.length s' <= List.length s.
Proof.
  intros H. destruct (re_match_suffix _ _ _ _ _ _ H) as [p1 [s1 [g1 [H1 L1]]]].
  injection H1 as -> _. exact L1.
Qed.

Lemma match_here_advancing_shorter (r : regex) (prev : option char) (s s' : str)
    (g : option str) :
  match_here_advancing r prev s = Some (s', g) -> List.length s' < List.length s.
Proof.
  intros H. destruct (re_match_suffix _ _ _ _ _ _ H) as [p1 [s1 [g1 [H1 L1]]]].
  cbv beta in H1. destruct (Nat.ltb_spec (List.length s1) (List.length s));
    [|discriminate]. injection H1 as -> _. assumption.
Qed.

Lemma search_from_unfold (r : regex) (before : str) (prev : option char) (s : str) :
  search_from r before prev s =
  match match_here r prev s with
  | Some (s', g) =>
    Some {| m_before := rev before; m_text := firstn (List.length s - List.length s') s;
            m_after := s'; m_group1 := g |}
  | None =>
    match s with
    | [] => None
    | c :: s' => search_from r (c :: before) (Some c) s'
    end
  end.
Proof. destruct s; reflexivity. Qed.

Lemma match_obj_lengths (m : match_obj) (s s' : str) :
  m_text m = firstn (List.length s - List.length s') s ->
  m_after m = s' ->
  List.length s' <= List.length s ->
  List.length (m_text m) + List.length (m_after m) <= List.length s.
Proof. intros -> -> L. rewrite length_firstn. lia. Qed.

(** The matched text and the text after it fit in the text searched. *)
Lemma search_from_lengths (r : regex) :
  forall s before prev m,
    search_from r before prev s = Some m ->
    List.length (m_text m) + List.length (m_after m) <= List.length s.
Proof.
  induction s as [|c s IH]; intros before prev m; rewrite search_from_unfold.
  - destruct (match_here r prev []) as [[s' g]|] eqn:E; [|discriminate].
    intros H. injection H as <-.
    apply (match_obj_lengths _ [] s'); [reflexivity | reflexivity|].
    exact (match_here_suffix _ _ _ _ _ E).
  - destruct (match_here r prev (c :: s)) as [[s' g]|] eqn:E.
    + intros H. injection H as <-.
      apply (match_obj_lengths _ (c :: s) s'); [reflexivity | reflexivity|].
      exact (match_here_suffix _ _ _ _ _ E).
    + intros H. specialize (IH _ _ _ H). cbn [List.length]. lia.
Qed.

Lemma search_next_lengths (r : regex) (advance : bool) (prev : option char)
    (s : str) (m : match_obj) :
  search_next r advance prev s = Some m ->
  List.length (m_text m) + List.length (m_after m) <= List.length s /\
  (advance = true -> List.length (m_after m) < List.length s).
Proof.
  unfold search_next. destruct advance.
  - destruct (match_here_advancing r prev s) as [[s' g]|] eqn:E.
    + intros H. injection H as <-.
      pose proof (match_here_advancing_shorter _ _ _ _ _ E) as L.
      split; [|intros _; exact L].
      apply (match_obj_lengths _ s s'); [reflexivity | reflexivity | lia].
    + destruct s as [|c s]; [discriminate|].
      intros H. pose proof (search_from_lengths _ _ _ _ _ H) as L.
      cbn [List.length]. split; [lia | intros _; lia].
  - intros H. pose proof (search_from_lengths _ _ _ _ _ H) as L.
    split; [exact L | discriminate].
Qed.

(** What is left to do: twice the length of the text, and one more when an
    empty match is still allowed at its start. *)
Definition work (advance : bool) (s : str) : nat :=
  2 * List.length s + (if advance then 0 else 1).

Lemma finditer_from_fuel (r : regex) :
  forall fuel1 fuel2 advance prev s,
    work advance s < fuel1 -> work advance s < fuel2 ->
    finditer_from fuel1 r advance prev s = finditer_from fuel2 r advance prev s.
Proof.
  induction fuel1 as [|fuel1 IH]; intros fuel2 advance prev s H1 H2; [lia|].
  destruct fuel2 as [|fuel2]; [lia|]. cbn [finditer_from].
  destruct (search_next r advance prev s) as [m|] eqn:E; [|reflexivity].
  destruct (search_next_lengths _ _ _ _ _ E) as [L La].
  f_equal. unfold work in *.
  apply IH; destruct (m_text m) as [|c t]; cbn [List.length] in *;
    destruct advance; try specialize (La eq_refl); lia.
Qed.

(** More fuel than [re_finditer] gives changes nothing. *)
Lemma re_finditer_fuel (r : regex) (s : str) (fuel : nat) :
  2 * List.length s + 2 <= fuel ->
  finditer_from fuel r false None s = re_finditer r s.
Proof.
  intros H. unfold re_finditer. apply finditer_from_fuel; unfold work; lia.
Qed.

End Iteration.

(** ** What [analyze_query] returns on a record with a text *)


Section Detector.
Context {rt : Runtime}.

Lemma analyze_sql_structure_text (q : SlowQueryInfo) (text : str) :
  query_text q = Some text ->
  _analyze_sql_structure q = Ok (structure_result text).
Proof.
  intros Ht. unfold _analyze_sql_structure, structure_result.
  rewrite Ht. simpl.
  destruct (sqlparse_parse text) as [[|st stmts]|e]; reflexivity.
Qed.

Lemma analyze_query_text (self : QueryAnalyzer) (q : SlowQueryInfo)
    (plan : option Plan) (text : str) :
  query_text q = Some text ->
  analyze_query self q plan =
    Ok (_analyze_execution_time q ++ _analyze_scan_data self q
          ++ structure_result text ++ plan_result plan).
Proof.
  intros Ht. unfold analyze_query.
  rewrite (analyze_sql_structure_text q text Ht). simpl.
  destruct plan as [p|]; simpl; [destruct (plan_truthy p)|];
    rewrite <- ?app_assoc, ?app_nil_r; reflexivity.
Qed.

End Detector.

(** ** Severity of a record (C8) *)

(** C8. The derived severity of a record is CRITICAL from 10 seconds on,
    HIGH from 5 to below 10, MEDIUM from 1 to below 5 and LOW below 1; it
    depends on the execution time alone and is always one of the four
    values. *)
Theorem severity_buckets (q : SlowQueryInfo) :
  ((10.0 <=? execution_time q)%float = true -> severity q = lit "CRITICAL") /\
  ((5.0 <=? execution_time q)%float = true ->
   (execution_time q <? 10.0)%float = true -> severity q = lit "HIGH") /\
  ((1.0 <=? execution_time q)%float = true ->
   (execution_time q <? 5.0)%float = true -> severity q = lit "MEDIUM") /\
  ((execution_time q <? 1.0)%float = true -> severity q = lit "LOW") /\
  (forall q', execution_time q' = execution_time q -> severity q' = severity q) /\
  In (severity q) [lit "CRITICAL"; lit "HIGH"; lit "MEDIUM"; lit "LOW"].
Proof.
  unfold severity. repeat split.
  - intros H. now rewrite H.
  - intros H5 H10.
    rewrite (float_lt_le_trans _ 10 10 H10 eq_refl), H5. reflexivity.
  - intros H1 H5.
    rewrite (float_lt_le_trans _ 5 10 H5 eq_refl),
            (float_lt_le_trans _ 5 5 H5 eq_refl), H1. reflexivity.
  - intros H1.
    rewrite (float_lt_le_trans _ 1 10 H1 eq_refl),
            (float_lt_le_trans _ 1 5 H1 eq_refl),
            (float_lt_le_trans _ 1 1 H1 eq_refl). reflexivity.
  - intros q' E. now rewrite E.
  - destruct (10.0 <=? execution_time q)%float; [now left|].
    destruct (5.0 <=? execution_time q)%float; [now right; left|].
    destruct (1.0 <=? execution_time q)%float; [now right; right; left|].
    now right; right; right; left.
Qed.

Lemma severity_buckets_witness :
  severity (Sample.record None 12.5 0 0 0) = lit "CRITICAL" /\
  severity (Sample.record None 7.25 0 0 0) = lit "HIGH" /\
  severity (Sample.record None 1.5 0 0 0) = lit "MEDIUM" /\
  severity (Sample.record None 0.25 0 0 0) = lit "LOW".
Proof.
  split; [|split; [|split]].
  - apply (severity_buckets (Sample.record None 12.5 0 0 0)). reflexivity.
  - apply (severity_buckets (Sample.record None 7.25 0 0 0)); reflexivity.
  - apply (severity_buckets (Sample.record None 1.5 0 0 0)); reflexivity.
  - apply (severity_buckets (Sample.record None 0.25 0 0 0)). reflexivity.
Defined.

(** ** The execution-time pass (C1) *)



(** ** The scan-volume pass (C2) *)




(** ** No error escapes the detector (C3) *)




(** ** The suggester (C4, C9, C10) *)

Section SuggesterProperties.
Context {rt : Runtime}.

(** The chain of comparisons on [problem_type.name] is a case analysis on
    the type. *)
Lemma generate_suggestion_dispatch (q : SlowQueryInfo) (p : QueryProblem) :
  _generate_suggestion_for_problem q p =
  match problem_type p with
  | FULL_TABLE_SCAN => s <- _suggest_index_optimization q p ;; Ok (Some s)
  | SELECT_STAR => s <- _suggest_specific_columns q p ;; Ok (Some s)
  | LIKE_PREFIX_WILDCARD => s <- _suggest_like_optimization q p ;; Ok (Some s)
  | OR_CONDITION => s <- _suggest_or_replacement q p ;; Ok (Some s)
  | FUNCTION_IN_WHERE => s <- _suggest_function_optimization q p ;; Ok (Some s)
  | TOO_MANY_ROWS => s <- _suggest_row_reduction q p ;; Ok (Some s)
  | SUBQUERY_INEFFICIENT => s <- _suggest_cte_or_join q p ;; Ok (Some s)
  | _ => Ok None
  end.
Proof.
  unfold _generate_suggestion_for_problem.
  destruct (problem_type p); reflexivity.
Qed.

Lemma index0_re_split (r : regex) (s : str) :
  exists x, index0 (re_split r s) = Ok x.
Proof.
  unfold re_split. destruct (map m_before (re_finditer r s)); simpl; eauto.
Qed.

Lemma extract_where_columns_ok (text : str) :
  exists cols, _extract_where_columns (Some text) = Ok cols.
Proof.
  unfold _extract_where_columns. simpl.
  destruct (re_search re_where_ci text) as [m|]; [|eauto].
  destruct (index0_re_split re_order_or_group (group1 m)) as [x ->]. simpl. eauto.
Qed.

Lemma extract_order_columns_ok (text : str) :
  exists cols, _extract_order_columns (Some text) = Ok cols.
Proof.
  unfold _extract_order_columns. simpl.
  destruct (re_search re_order_by text); eauto.
Qed.

Lemma extract_join_columns_ok (text : str) :
  exists cols, _extract_join_columns (Some text) = Ok cols.
Proof. unfold _extract_join_columns. simpl. eauto. Qed.

Lemma extract_table_names_ok (text : str) :
  exists tables, _extract_table_names (Some text) = Ok tables.
Proof. unfold _extract_table_names. simpl. eauto. Qed.

Lemma suggest_index_text (q : SlowQueryInfo) (p : QueryProblem) (text : str) :
  query_text q = Some text ->
  yields (lit "INDEX") (Some text) (_suggest_index_optimization q p).
Proof.
  intros Ht. unfold _suggest_index_optimization. rewrite Ht. cbv zeta.
  destruct (extract_where_columns_ok text) as [wc ->].
  destruct (extract_order_columns_ok text) as [oc ->].
  destruct (extract_join_columns_ok text) as [jc ->].
  cbn [bind]. eexists. split; [reflexivity|]. split; reflexivity.
Qed.

Lemma suggest_columns_text (q : SlowQueryInfo) (p : QueryProblem) (text : str) :
  query_text q = Some text ->
  yields (lit "QUERY") (Some text) (_suggest_specific_columns q p).
Proof.
  intros Ht. unfold _suggest_specific_columns. rewrite Ht. cbv zeta.
  destruct (extract_table_names_ok text) as [ts ->].
  cbn [bind]. eexists. split; [reflexivity|]. split; reflexivity.
Qed.

Lemma suggest_like_text (q : SlowQueryInfo) (p : QueryProblem) (text : str) :
  query_text q = Some text ->
  yields (lit "QUERY") (Some text) (_suggest_like_optimization q p).
Proof.
  intros Ht. unfold _suggest_like_optimization. rewrite Ht. cbv zeta.
  cbn [bind text_arg]. eexists. split; [reflexivity|]. split; reflexivity.
Qed.

Lemma suggest_or_any (q : SlowQueryInfo) (p : QueryProblem) :
  yields (lit "QUERY") (query_text q) (_suggest_or_replacement q p).
Proof. eexists. split; [reflexivity|]. split; reflexivity. Qed.

Lemma suggest_function_any (q : SlowQueryInfo) (p : QueryProblem) :
  yields (lit "QUERY") (query_text q) (_suggest_function_optimization q p).
Proof. eexists. split; [reflexivity|]. split; reflexivity. Qed.

Lemma suggest_rows_any (q : SlowQueryInfo) (p : QueryProblem) :
  yields (lit "QUERY") (query_text q) (_suggest_row_reduction q p).
Proof. eexists. split; [reflexivity|]. split; reflexivity. Qed.

Lemma suggest_cte_any (q : SlowQueryInfo) (p : QueryProblem) :
  yields (lit "QUERY") (query_text q) (_suggest_cte_or_join q p).
Proof. eexists. split; [reflexivity|]. split; reflexivity. Qed.

(** One problem, on a record with a text: a suggestion of the category of
    the type when the type is recognized, [None] otherwise. *)
Lemma generate_suggestion_text (q : SlowQueryInfo) (p : QueryProblem) (text : str) :
  query_text q = Some text ->
  if recognized (problem_type p)
  then exists s, _generate_suggestion_for_problem q p = Ok (Some s) /\
                 category s = category_of (problem_type p) /\
                 original_sql s = Some text
  else _generate_suggestion_for_problem q p = Ok None.
Proof.
  intros Ht. rewrite generate_suggestion_dispatch.
  pose proof (suggest_or_any q p) as Hor.
  pose proof (suggest_function_any q p) as Hfn.
  pose proof (suggest_rows_any q p) as Hrows.
  pose proof (suggest_cte_any q p) as Hcte.
  rewrite Ht in Hor, Hfn, Hrows, Hcte.
  destruct (problem_type p); cbn [recognized recognized_types existsb
    ProblemType_eqb orb category_of]; try reflexivity;
  match goal with
  | |- context [_suggest_index_optimization] =>
    destruct (suggest_index_text q p text Ht) as [s [-> [Hc Ho]]]
  | |- context [_suggest_specific_columns] =>
    destruct (suggest_columns_text q p text Ht) as [s [-> [Hc Ho]]]
  | |- context [_suggest_like_optimization] =>
    destruct (suggest_like_text q p text Ht) as [s [-> [Hc Ho]]]
  | |- context [_suggest_or_replacement] => destruct Hor as [s [-> [Hc Ho]]]
  | |- context [_suggest_function_optimization] => destruct Hfn as [s [-> [Hc Ho]]]
  | |- context [_suggest_row_reduction] => destruct Hrows as [s [-> [Hc Ho]]]
  | |- context [_suggest_cte_or_join] => destruct Hcte as [s [-> [Hc Ho]]]
  end; exists s; auto.
Qed.

(** The suggestion of a handler carries the text attribute of the record,
    whatever it holds. *)
Lemma generate_suggestion_original (q : SlowQueryInfo) (p : QueryProblem)
    (s : OptimizationSuggestion) :
  _generate_suggestion_for_problem q p = Ok (Some s) ->
  original_sql s = query_text q.
Proof.
  rewrite generate_suggestion_dispatch.
  destruct (problem_type p); try discriminate.
  - unfold _suggest_index_optimization. cbv zeta.
    destruct (_extract_where_columns (query_text q)); [|discriminate].
    destruct (_extract_order_columns (query_text q)); [|discriminate].
    destruct (_extract_join_columns (query_text q)); [|discriminate].
    cbn [bind]. intros H. injection H as <-. reflexivity.
  - destruct (suggest_rows_any q p) as [s' [-> [_ Ho]]].
    cbn [bind]. intros H. injection H as <-. exact Ho.
  - destruct (suggest_cte_any q p) as [s' [-> [_ Ho]]].
    cbn [bind]. intros H. injection H as <-. exact Ho.
  - unfold _suggest_specific_columns. cbv zeta.
    destruct (_extract_table_names (query_text q)); [|discriminate].
    cbn [bind]. intros H. injection H as <-. reflexivity.
  - destruct (suggest_or_any q p) as [s' [-> [_ Ho]]].
    cbn [bind]. intros H. injection H as <-. exact Ho.
  - unfold _suggest_like_optimization. cbv zeta.
    destruct (text_arg (query_text q)); [|discriminate].
    cbn [bind]. intros H. injection H as <-. reflexivity.
  - destruct (suggest_function_any q p) as [s' [-> [_ Ho]]].
    cbn [bind]. intros H. injection H as <-. exact Ho.
Qed.

Lemma generate_loop_text (q : SlowQueryInfo) (text : str) :
  query_text q = Some text ->
  forall ps acc, exists l,
    generate_loop q ps acc = Ok (acc ++ l) /\
    Forall2 (suggestion_of q) (filter is_recognized ps) l.
Proof.
  intros Ht. induction ps as [|p ps IH]; intros acc.
  - exists []. rewrite app_nil_r. split; [reflexivity | constructor].
  - pose proof (generate_suggestion_text q p text Ht) as Hp.
    cbn [generate_loop filter]. unfold is_recognized at 1.
    destruct (recognized (problem_type p)).
    + destruct Hp as [s [E [Hc _]]]. rewrite E. cbn [bind].
      destruct (IH (acc ++ [s])) as [l [El Hl]].
      exists (s :: l). rewrite El, <- app_assoc. split; [reflexivity|].
      constructor; [split; assumption | exact Hl].
    + rewrite Hp. cbn [bind]. apply IH.
Qed.

Lemma generate_loop_original (q : SlowQueryInfo) :
  forall ps acc l,
    generate_loop q ps acc = Ok l ->
    exists l', l = acc ++ l' /\
      Forall (fun s => original_sql s = query_text q) l' /\
      List.length l' <= List.length ps.
Proof.
  induction ps as [|p ps IH]; intros acc l.
  - cbn. intros H. injection H as <-. exists []. rewrite app_nil_r.
    split; [reflexivity|]. split; [constructor | apply le_n].
  - cbn [generate_loop].
    destruct (_generate_suggestion_for_problem q p) as [[s|]|e] eqn:E;
      cbn [bind]; [| |discriminate]; intros H.
    + destruct (IH _ _ H) as [l' [-> [Hf Hlen]]].
      exists (s :: l'). rewrite <- app_assoc. split; [reflexivity|].
      split; [constructor; [apply (generate_suggestion_original q p s E) | exact Hf]|].
      cbn. apply le_n_S, Hlen.
    + destruct (IH _ _ H) as [l' [-> [Hf Hlen]]].
      exists l'. split; [reflexivity|]. split; [exact Hf|].
      cbn. apply le_S, Hlen.
Qed.

End SuggesterProperties.





(** ** The structure pass (C5, C6, C7, C9) *)

(** *** Literal patterns and substring tests *)




Section RegexProperties.
Context {rt : Runtime}.



End RegexProperties.

(** *** Aggregate calls *)

Section StructureProperties.
Context {rt : Runtime}.






(** *** The six checks, one by one *)

Lemma structure_checks_emits (sql : str) :
  structure_checks sql [] =
    emit (contains (lit "SELECT *") sql) select_star_problem
    ++ emit (is_some (re_search re_or sql) && contains (lit "WHERE") sql)
         or_condition_problem
    ++ emit (is_some (re_search re_like_prefix sql)) like_prefix_problem
    ++ emit (function_in_where sql) function_in_where_problem
    ++ emit (lacks_where sql) no_where_problem
    ++ emit (is_some (re_search re_subquery sql)) subquery_problem.
Proof.
  unfold structure_checks, function_in_where, lacks_where, emit. cbv zeta.
  destruct (contains (lit "SELECT *") sql);
  destruct (is_some (re_search re_or sql));
  destruct (contains (lit "WHERE") sql);
  destruct (is_some (re_search re_like_prefix sql));
  destruct (re_search re_where sql) as [m|];
  try destruct (is_some (re_search re_function_call (group1 m)));
  destruct (startswith (lit "SELECT") sql);
  destruct (contains (lit "JOIN") sql);
  destruct (is_some (re_search re_aggregate sql));
  destruct (is_some (re_search re_subquery sql));
  reflexivity.
Qed.

Lemma Exists_emit (P : QueryProblem -> Prop) (c : bool) (p : QueryProblem) :
  Exists P (emit c p) <-> c = true /\ P p.
Proof.
  destruct c; cbn.
  - split; [intros H; inversion H as [? ? Hp|? ? Hn]; [auto | inversion Hn]|].
    intros [_ Hp]. now constructor.
  - split; [intros H; inversion H | intros [H _]; discriminate].
Qed.



Lemma other_passes_types (self : QueryAnalyzer) (q : SlowQueryInfo)
    (plan : option Plan) :
  Forall metric_type (_analyze_execution_time q) /\
  Forall metric_type (_analyze_scan_data self q) /\
  Forall metric_type (plan_result plan).
Proof.
  unfold metric_type. split; [|split].
  - unfold _analyze_execution_time.
    destruct (10.0 <=? execution_time q)%float;
      [|destruct (5.0 <=? execution_time q)%float];
      cbn [app]; repeat constructor.
  - unfold _analyze_scan_data.
    destruct (scan_rows q >? max_scan_rows self)%Z,
             (scan_bytes q >? max_scan_bytes self)%Z,
             (memory_used q >? 536870912)%Z;
      cbn [app]; repeat (constructor; [cbn; tauto|]); constructor.
  - unfold plan_result, _analyze_execution_plan.
    destruct plan as [p|]; [destruct (plan_truthy p)|];
      try destruct (contains (lit "OLAP_SCAN") (str_upper (plan_str p))
                    || contains (lit "FULL_SCAN") (str_upper (plan_str p)));
      cbn [app]; repeat constructor.
Qed.

Lemma metric_type_not (ty : ProblemType) (l : list QueryProblem) :
  ~ In ty [FULL_TABLE_SCAN; TOO_MANY_ROWS; MEMORY_INTENSIVE] ->
  Forall metric_type l -> ~ Exists (has_type ty) l.
Proof.
  intros Hty Hl Hex. apply Exists_exists in Hex. destruct Hex as [p [Hin Hp]].
  rewrite Forall_forall in Hl. specialize (Hl p Hin).
  unfold metric_type, has_type in *. rewrite Hp in Hl. contradiction.
Qed.

(** A type the metric passes never report is in the result of
    [analyze_query] exactly when the structure pass reports it. *)
Lemma structure_only (self : QueryAnalyzer) (q : SlowQueryInfo)
    (plan : option Plan) (ty : ProblemType) (mid : list QueryProblem) :
  ~ In ty [FULL_TABLE_SCAN; TOO_MANY_ROWS; MEMORY_INTENSIVE] ->
  Exists (has_type ty)
    (_analyze_execution_time q ++ _analyze_scan_data self q ++ mid
       ++ plan_result plan)
  <-> Exists (has_type ty) mid.
Proof.
  intros Hty. destruct (other_passes_types self q plan) as [Ht [Hs Hp]].
  rewrite !Exists_app. split.
  - intros [H|[H|[H|H]]]; [| |exact H|]; exfalso.
    + exact (metric_type_not ty _ Hty Ht H).
    + exact (metric_type_not ty _ Hty Hs H).
    + exact (metric_type_not ty _ Hty Hp H).
  - intros H. right; right; left. exact H.
Qed.

End StructureProperties.

(** *** Evaluation on the texts of the scenarios

    On ASCII text the run time is never consulted by the checks, so each
    result holds for every run time. *)

Section Scenarios.
Context {rt : Runtime}.




Lemma checks_derived_table :
  structure_checks (str_upper sql_derived_table) []
  = [select_star_problem; no_where_problem].
Proof. vm_compute. reflexivity. Qed.

Lemma checks_derived_table_spaced :
  structure_checks (str_upper sql_derived_table_spaced) []
  = [select_star_problem; no_where_problem; subquery_problem].
Proof. vm_compute. reflexivity. Qed.


End Scenarios.



(** C5 (the code at the failing input). On [SELECT * FROM (SELECT id FROM
    t) t] the structure pass returns a list without any
    SUBQUERY_INEFFICIENT problem, whatever [sqlparse] does: the pattern
    asks for at least one character between the parenthesis and SELECT.
    With a space after the parenthesis the subquery is reported. *)
Theorem derived_table_subquery_missed {rt : Runtime} (q : SlowQueryInfo) :
  (query_text q = Some sql_derived_table ->
   exists l, _analyze_sql_structure q = Ok l /\
     ~ Exists (has_type SUBQUERY_INEFFICIENT) l) /\
  (forall st stmts,
     query_text q = Some sql_derived_table_spaced ->
     sqlparse_parse sql_derived_table_spaced = Ok (st :: stmts) ->
     exists l, _analyze_sql_structure q = Ok l /\
       Exists (is_problem SUBQUERY_INEFFICIENT (lit "MEDIUM")) l).
Proof.
  split.
  - intros Ht. eexists. split; [apply (analyze_sql_structure_text q _ Ht)|].
    unfold structure_result.
    destruct (sqlparse_parse sql_derived_table) as [[|st stmts]|e];
      rewrite ?checks_derived_table; intros H;
      repeat match goal with
      | H : Exists _ (_ :: _) |- _ => inversion H; subst; clear H
      | H : Exists _ [] |- _ => inversion H
      end; discriminate.
  - intros st stmts Ht Hparse.
    eexists. split; [apply (analyze_sql_structure_text q _ Ht)|].
    unfold structure_result. rewrite Hparse, checks_derived_table_spaced.
    do 2 apply Exists_cons_tl. apply Exists_cons_hd. split; reflexivity.
Qed.

Lemma derived_table_subquery_missed_witness :
  exists l,
    @_analyze_sql_structure Sample.runtime
      (Sample.record (Some sql_derived_table) 0.25 0 0 0) = Ok l /\
    ~ Exists (has_type SUBQUERY_INEFFICIENT) l.
Proof.
  apply (@derived_table_subquery_missed Sample.runtime
           (Sample.record (Some sql_derived_table) 0.25 0 0 0)).
  reflexivity.
Defined.





(* ================================================================== *)
(** * Further properties *)

(** ** Stripping white space *)

Section Strip.
Context {rt : Runtime}.

Lemma lstrip_spaces (ws s : str) :
  forallb is_space ws = true -> lstrip (ws ++ s) = lstrip s.
Proof.
  induction ws as [|c ws IH]; [reflexivity|].
  cbn [forallb]. intros H. apply andb_prop in H. destruct H as [Hc Hws].
  cbn. rewrite Hc. apply IH, Hws.
Qed.

Lemma lstrip_app (s u : str) :
  lstrip s <> [] -> lstrip (s ++ u) = lstrip s ++ u.
Proof.
  induction s as [|c s IH]; [intros H; now contradiction H|].
  cbn. destruct (is_space c); [exact IH | reflexivity].
Qed.

Lemma lstrip_all_spaces (s : str) : lstrip s = [] -> forallb is_space s = true.
Proof.
  induction s as [|c s IH]; [reflexivity|].
  cbn. destruct (is_space c); [exact IH | discriminate].
Qed.

(** White space around a text is stripped with the white space of the
    text itself. *)
Lemma strip_surrounded (ws1 s ws2 : str) :
  forallb is_space ws1 = true -> forallb is_space ws2 = true ->
  strip (ws1 ++ s ++ ws2) = strip s.
Proof.
  intros H1 H2. unfold strip. rewrite (lstrip_spaces ws1 _ H1).
  destruct (lstrip s) as [|c r] eqn:E.
  - rewrite <- (app_nil_r s) at 1. rewrite <- app_assoc. cbn [app].
    rewrite (lstrip_spaces s ws2 (lstrip_all_spaces s E)).
    rewrite <- (app_nil_r ws2), (lstrip_spaces ws2 [] H2). reflexivity.
  - rewrite lstrip_app by (rewrite E; discriminate). rewrite E.
    rewrite rev_app_distr. rewrite lstrip_spaces; [reflexivity|].
    rewrite forallb_forall in *. intros x Hx. apply H2, in_rev, Hx.
Qed.

End Strip.

(** ** The type of a statement *)

(** Two prefixes of one text: one is a prefix of the other. *)
Lemma startswith_two (k1 k2 s : str) :
  startswith k1 s = true -> startswith k2 s = true ->
  startswith k1 k2 = true \/ startswith k2 k1 = true.
Proof.
  revert k2 s. induction k1 as [|a k1 IH]; intros k2 s H1 H2; [now left|].
  destruct k2 as [|b k2]; [now right|].
  destruct s as [|c s]; [discriminate|]. cbn in *.
  apply andb_prop in H1. destruct H1 as [Ha H1].
  apply andb_prop in H2. destruct H2 as [Hb H2].
  apply N.eqb_eq in Ha, Hb. subst.
  rewrite !N.eqb_refl. cbn. exact (IH _ _ H1 H2).
Qed.

Section QueryTypeProperties.
Context {rt : Runtime}.

(** X1. No keyword is a prefix of another, so the order of the tests does
    not matter: [get_query_type] returns a type other than OTHER exactly
    when the stripped, upper-cased text starts with the keyword of that
    type, and OTHER exactly when it starts with none of the nine. *)
Theorem get_query_type_by_keyword (query_text : str) (t : QueryType) :
  get_query_type query_text = t <->
  match QueryType_keyword t with
  | Some k => startswith k (normalized query_text) = true
  | None => forallb (fun k => negb (startswith k (normalized query_text)))
              statement_keywords = true
  end.
Proof.
  unfold get_query_type, normalized. cbv zeta.
  set (text := str_upper (strip query_text)).
  destruct (startswith (lit "SELECT") text) eqn:E1;
  [|destruct (startswith (lit "INSERT") text) eqn:E2;
  [|destruct (startswith (lit "UPDATE") text) eqn:E3;
  [|destruct (startswith (lit "DELETE") text) eqn:E4;
  [|destruct (startswith (lit "CREATE") text) eqn:E5;
  [|destruct (startswith (lit "ALTER") text) eqn:E6;
  [|destruct (startswith (lit "DROP") text) eqn:E7;
  [|destruct (startswith (lit "SHOW") text) eqn:E8;
  [|destruct (startswith (lit "EXPLAIN") text) eqn:E9]]]]]]]];
  destruct t; cbn [QueryType_keyword QueryType_value statement_keywords forallb];
  rewrite ?E1, ?E2, ?E3, ?E4, ?E5, ?E6, ?E7, ?E8, ?E9; cbn [negb andb];
  (split; [intros H; first [reflexivity | discriminate H | exact H]
          | intros H; first [reflexivity | discriminate H
              | exfalso;
                match goal with
                | Ha : startswith ?k1 text = true, Hb : startswith ?k2 text = true |- _ =>
                  lazymatch k1 with
                  | k2 => fail
                  | _ => destruct (startswith_two k1 k2 text Ha Hb) as [X|X];
                         vm_compute in X; discriminate X
                  end
                end]]).
Qed.

(** X2. White space before and after the statement does not change its
    type. *)
Theorem get_query_type_ignores_blanks (ws1 query_text ws2 : str) :
  forallb is_space ws1 = true -> forallb is_space ws2 = true ->
  get_query_type (ws1 ++ query_text ++ ws2) = get_query_type query_text.
Proof.
  intros H1 H2. unfold get_query_type.
  rewrite (strip_surrounded ws1 query_text ws2 H1 H2). reflexivity.
Qed.

End QueryTypeProperties.

Lemma get_query_type_ignores_blanks_witness :
  @get_query_type Sample.runtime (lit "  " ++ lit "select 1" ++ nl)
  = @get_query_type Sample.runtime (lit "select 1").
Proof.
  apply (@get_query_type_ignores_blanks Sample.runtime); reflexivity.
Defined.

(** ** The matcher finds matches only *)

Lemma firstn_app_exact {A} (w s' : list A) :
  firstn (List.length (w ++ s') - List.length s') (w ++ s') = w.
Proof.
  rewrite length_app, Nat.add_sub.
  rewrite firstn_app, Nat.sub_diag, firstn_all. cbn. apply app_nil_r.
Qed.

Section Soundness.
Context {rt : Runtime}.

Lemma rep_match_sound {R} (greedy : bool) (p : char -> bool) (lo : nat)
    (k : option char -> str -> option R) :
  forall prev s x,
    rep_match greedy p lo k prev s = Some x ->
    exists w s' prev',
      s = w ++ s' /\ lo <= List.length w /\ forallb p w = true /\
      k prev' s' = Some x.
Proof.
  induction lo as [|lo IH].
  - intros prev s. revert prev.
    induction s as [|c s IHs]; intros prev x; cbn.
    + intros H. exists [], [], prev. auto.
    + destruct (p c) eqn:Hp;
        [|intros H; exists [], (c :: s), prev; auto].
      assert (Hmore : forall y,
                rep_match greedy p 0 k (Some c) s = Some y ->
                exists w s' prev',
                  c :: s = w ++ s' /\ 0 <= List.length w /\
                  forallb p w = true /\ k prev' s' = Some y).
      { intros y Hy. destruct (IHs _ _ Hy) as [w [s' [prev' [-> [_ [Hw Hk]]]]]].
        exists (c :: w), s', prev'. cbn. rewrite Hp, Hw.
        repeat split; auto. apply Nat.le_0_l. }
      change ((fix more (prev0 : option char) (s0 : str) : option R :=
                 match s0 with
                 | [] => k prev0 s0
                 | c0 :: s' =>
                   if p c0
                   then if greedy
                        then match more (Some c0) s' with
                             | Some x0 => Some x0
                             | None => k prev0 s0
                             end
                        else match k prev0 s0 with
                             | Some x0 => Some x0
                             | None => more (Some c0) s'
                             end
                   else k prev0 s0
                 end) (Some c) s)
        with (rep_match greedy p 0 k (Some c) s).
      destruct greedy.
      * destruct (rep_match true p 0 k (Some c) s) as [y|] eqn:E.
        -- intros H. injection H as <-. apply Hmore. reflexivity.
        -- intros H. exists [], (c :: s), prev. auto.
      * destruct (k prev (c :: s)) as [y|] eqn:E.
        -- intros H. injection H as <-. exists [], (c :: s), prev. auto.
        -- apply Hmore.
  - intros prev [|c s] x; cbn; [discriminate|].
    destruct (p c) eqn:Hp; [|discriminate].
    intros H. destruct (IH _ _ _ H) as [w [s' [prev' [-> [Hlo [Hw Hk]]]]]].
    exists (c :: w), s', prev'. cbn. rewrite Hp, Hw.
    repeat split; auto. lia.
Qed.

(** Whatever the matcher hands to its continuation is what is left after
    a match of the pattern. *)
Lemma re_match_sound {R} (r : regex) :
  forall (k : option char -> str -> option str -> option R) prev s g x,
    re_match r k prev s g = Some x ->
    exists w s' prev' g',
      s = w ++ s' /\ matches r w g g' /\ k prev' s' g' = Some x.
Proof.
  induction r as [|p|r1 IH1 r2 IH2|r1 IH1 r2 IH2|greedy lo p|r1 IH1| |];
    intros k prev s g x; cbn [re_match matches].
  - intros H. exists [], s, prev, g. auto.
  - destruct s as [|c s]; [discriminate|]. destruct (p c) eqn:Hp; [|discriminate].
    intros H. exists [c], s, (Some c), g. repeat split; eauto.
  - intros H. destruct (IH1 _ _ _ _ _ H) as [w1 [s1 [p1 [g1 [-> [M1 H1]]]]]].
    destruct (IH2 _ _ _ _ _ H1) as [w2 [s2 [p2 [g2 [-> [M2 H2]]]]]].
    exists (w1 ++ w2), s2, p2, g2. rewrite app_assoc.
    split; [reflexivity|]. split; [|exact H2]. exists w1, w2, g1. auto.
  - destruct (re_match r1 k prev s g) as [y|] eqn:E.
    + intros H. injection H as <-.
      destruct (IH1 _ _ _ _ _ E) as [w [s' [p' [g' [-> [M Hk]]]]]].
      exists w, s', p', g'. auto.
    + intros H. destruct (IH2 _ _ _ _ _ H) as [w [s' [p' [g' [-> [M Hk]]]]]].
      exists w, s', p', g'. auto.
  - intros H.
    destruct (rep_match_sound _ _ _ _ _ _ _ H) as [w [s' [p' [-> [Hlo [Hw Hk]]]]]].
    exists w, s', p', g. auto.
  - intros H. destruct (IH1 _ _ _ _ _ H) as [w [s' [p' [g' [-> [M Hk]]]]]].
    rewrite firstn_app_exact in Hk.
    exists w, s', p', (Some w). split; [reflexivity|]. split; [|exact Hk].
    split; [exists g'; exact M | reflexivity].
  - destruct (xorb _ _); [|discriminate]. intros H. exists [], s, prev, g. auto.
  - destruct s as [|c [|c' s]]; [| |discriminate].
    + intros H. exists [], [], prev, g. auto.
    + destruct (c =? 10)%N; [|discriminate]. intros H. exists [], [c], prev, g. auto.
Qed.

Lemma match_here_sound (r : regex) (prev : option char) (s s' : str)
    (g : option str) :
  match_here r prev s = Some (s', g) ->
  exists w, s = w ++ s' /\ matches r w None g.
Proof.
  intros H. destruct (re_match_sound _ _ _ _ _ _ H) as [w [s1 [p1 [g1 [-> [M H1]]]]]].
  injection H1 as -> ->. exists w. auto.
Qed.

Lemma match_here_advancing_sound (r : regex) (prev : option char) (s s' : str)
    (g : option str) :
  match_here_advancing r prev s = Some (s', g) ->
  exists w, s = w ++ s' /\ matches r w None g.
Proof.
  intros H. destruct (re_match_sound _ _ _ _ _ _ H) as [w [s1 [p1 [g1 [-> [M H1]]]]]].
  cbv beta in H1. destruct (_ <? _); [|discriminate].
  injection H1 as -> ->. exists w. auto.
Qed.

Lemma match_obj_of (r : regex) (before s s' w : str) (g : option str) :
  s = w ++ s' -> matches r w None g ->
  match_of r (before ++ s)
    {| m_before := before; m_text := firstn (List.length s - List.length s') s;
       m_after := s'; m_group1 := g |}.
Proof.
  intros -> M. unfold match_of. cbn [m_before m_text m_after m_group1].
  rewrite firstn_app_exact. auto.
Qed.

Lemma search_from_sound (r : regex) :
  forall s before prev m,
    search_from r before prev s = Some m ->
    match_of r (rev before ++ s) m.
Proof.
  induction s as [|c s IH]; intros before prev m; rewrite search_from_unfold.
  - destruct (match_here r prev []) as [[s' g]|] eqn:E; [|discriminate].
    intros H. injection H as <-.
    destruct (match_here_sound _ _ _ _ _ E) as [w [Hw M]].
    exact (match_obj_of r (rev before) [] s' w g Hw M).
  - destruct (match_here r prev (c :: s)) as [[s' g]|] eqn:E.
    + intros H. injection H as <-.
      destruct (match_here_sound _ _ _ _ _ E) as [w [Hw M]].
      exact (match_obj_of r (rev before) (c :: s) s' w g Hw M).
    + intros H. specialize (IH _ _ _ H). cbn [rev] in IH.
      rewrite <- app_assoc in IH. exact IH.
Qed.

Lemma re_search_sound (r : regex) (s : str) (m : match_obj) :
  re_search r s = Some m -> match_of r s m.
Proof. intros H. exact (search_from_sound r s [] None m H). Qed.

Lemma search_next_sound (r : regex) (advance : bool) (prev : option char)
    (s : str) (m : match_obj) :
  search_next r advance prev s = Some m -> match_of r s m.
Proof.
  unfold search_next. destruct advance.
  - destruct (match_here_advancing r prev s) as [[s' g]|] eqn:E.
    + intros H. injection H as <-.
      destruct (match_here_advancing_sound _ _ _ _ _ E) as [w [Hw M]].
      exact (match_obj_of r [] s s' w g Hw M).
    + destruct s as [|c s]; [discriminate|].
      intros H. exact (search_from_sound r s [c] (Some c) m H).
  - intros H. exact (search_from_sound r s [] prev m H).
Qed.

(** The matches [re.finditer] yields, with the text after the last one,
    make up the text; each is a match of the pattern. *)
Lemma finditer_from_sound (r : regex) :
  forall fuel advance prev s,
    let ms := finditer_from fuel r advance prev s in
    flat_map (fun m => m_before m ++ m_text m) ms ++ tail_text ms s = s /\
    Forall (fun m => matches r (m_text m) None (m_group1 m)) ms.
Proof.
  induction fuel as [|fuel IH]; intros advance prev s; cbn zeta.
  - cbn. auto.
  - cbn [finditer_from].
    destruct (search_next r advance prev s) as [m|] eqn:E; [|cbn; auto].
    destruct (search_next_sound _ _ _ _ _ E) as [Hs M].
    specialize (IH (match m_text m with [] => true | _ => false end)
                   (prev_after prev (m_before m ++ m_text m)) (m_after m)).
    cbn zeta in IH. destruct IH as [Hcat Hall].
    split; [|constructor; assumption].
    cbn [flat_map]. rewrite <- !app_assoc.
    set (ms := finditer_from fuel r _ _ (m_after m)) in *.
    assert (Ht : flat_map (fun m0 => m_before m0 ++ m_text m0) ms
                   ++ tail_text (m :: ms) s = m_after m).
    { destruct ms as [|m1 ms1]; [cbn in *; reflexivity|].
      etransitivity; [|exact Hcat]. reflexivity. }
    rewrite Ht. symmetry. exact Hs.
Qed.

End Soundness.

(** ** The columns the suggester extracts are identifiers *)

Section Columns.
Context {rt : Runtime}.

Lemma matches_identifier (w : str) (g g' : option str) :
  matches (Group (Seq (Chr ident_start) (Rep true 0 ident_char))) w g g' ->
  g' = Some w /\ is_identifier w = true.
Proof.
  cbn [matches]. intros [[g1 [w1 [w2 [g2 [-> [[c [-> [Hc _]]] [_ [Hw _]]]]]]]] ->].
  split; [reflexivity|]. cbn. now rewrite Hc, Hw.
Qed.

Lemma re_ident_group (w : str) (g' : option str) :
  matches re_ident w None g' -> exists x, g' = Some x /\ is_identifier x = true.
Proof.
  unfold re_ident. cbn [matches].
  intros [w1 [w2 [g1 [_ [[_ ->] [w3 [w4 [g2 [_ [M [_ ->]]]]]]]]]]].
  destruct M as [[g3 M] ->].
  destruct (matches_identifier w3 None (Some w3)) as [_ Hid].
  { split; [exists g3; exact M | reflexivity]. }
  exists w3. auto.
Qed.

Lemma re_compared_ident_group (w : str) (g' : option str) :
  matches re_compared_ident w None g' ->
  exists x, g' = Some x /\ is_identifier x = true.
Proof.
  unfold re_compared_ident. cbn [matches].
  intros [w1 [w2 [g1 [_ [[_ ->] [w3 [w4 [g2 [_ [M R]]]]]]]]]].
  destruct R as [w5 [w6 [g3 [_ [[_ [_ ->]] [c [_ [_ ->]]]]]]]].
  destruct M as [[g4 M] ->].
  destruct (matches_identifier w3 None (Some w3)) as [_ Hid].
  { split; [exists g4; exact M | reflexivity]. }
  exists w3. auto.
Qed.

(** What [re.findall] returns are the groups of matches of the pattern. *)
Lemma re_findall_groups (r : regex) (P : str -> Prop) (s : str) :
  (forall w g', matches r w None g' -> exists x, g' = Some x /\ P x) ->
  Forall P (re_findall r s).
Proof.
  intros HP. unfold re_findall, re_finditer.
  destruct (finditer_from_sound r (2 * List.length s + 2) false None s) as [_ H].
  apply Forall_map. eapply Forall_impl; [|exact H].
  intros m M. destruct (HP _ _ M) as [x [Hg Hx]].
  unfold group1. now rewrite Hg.
Qed.

Lemma findall_re_ident (s : str) :
  Forall (fun w => is_identifier w = true) (re_findall re_ident s).
Proof. apply re_findall_groups. exact re_ident_group. Qed.

Lemma findall_re_compared_ident (s : str) :
  Forall (fun w => is_identifier w = true) (re_findall re_compared_ident s).
Proof. apply re_findall_groups. exact re_compared_ident_group. Qed.

Lemma extract_columns_identifiers (text : str) :
  exists where_columns order_columns join_columns,
    _extract_where_columns (Some text) = Ok where_columns /\
    _extract_order_columns (Some text) = Ok order_columns /\
    _extract_join_columns (Some text) = Ok join_columns /\
    Forall (fun c => is_identifier c = true)
      (where_columns ++ order_columns ++ join_columns).
Proof.
  unfold _extract_where_columns, _extract_order_columns, _extract_join_columns.
  cbn [text_arg bind].
  assert (Hw : exists cols,
             match re_search re_where_ci text with
             | Some where_match =>
               where_clause <- index0 (re_split re_order_or_group (group1 where_match)) ;;
               Ok ([] ++ re_findall re_compared_ident where_clause)
             | None => Ok []
             end = Ok cols /\ Forall (fun c => is_identifier c = true) cols).
  { destruct (re_search re_where_ci text) as [m|]; [|eauto].
    destruct (index0_re_split re_order_or_group (group1 m)) as [x ->].
    cbn [bind app]. eexists. split; [reflexivity|].
    apply findall_re_compared_ident. }
  assert (Ho : exists cols,
             match re_search re_order_by text with
             | Some order_match =>
               Ok ([] ++ re_findall re_ident (group1 order_match))
             | None => Ok []
             end = Ok cols /\ Forall (fun c => is_identifier c = true) cols).
  { destruct (re_search re_order_by text) as [m|]; [|eauto].
    eexists. split; [reflexivity|]. apply findall_re_ident. }
  destruct Hw as [wc [-> Hwc]]. destruct Ho as [oc [-> Hoc]].
  do 3 eexists. repeat split; try reflexivity.
  apply Forall_app. split; [exact Hwc|]. apply Forall_app. split; [exact Hoc|].
  generalize (re_findall re_on text). intros ms.
  assert (H : forall acc, Forall (fun c => is_identifier c = true) acc ->
            Forall (fun c => is_identifier c = true)
              (fold_left (fun columns m => columns ++ re_findall re_ident m) ms acc)).
  { induction ms as [|m ms IH]; intros acc Hacc; [exact Hacc|].
    cbn [fold_left]. apply IH, Forall_app. split; [exact Hacc|].
    apply findall_re_ident. }
  apply H. constructor.
Qed.

(** X3. Whatever the SQL text, the three column extractions of the
    suggester return lists of identifiers only (a letter or underscore, then
    letters, digits and underscores): nothing else of the text reaches the
    index template. *)
Theorem extracted_columns_are_identifiers (text : str) :
  exists where_columns order_columns join_columns,
    _extract_where_columns (Some text) = Ok where_columns /\
    _extract_order_columns (Some text) = Ok order_columns /\
    _extract_join_columns (Some text) = Ok join_columns /\
    Forall (fun c => is_identifier c = true)
      (where_columns ++ order_columns ++ join_columns).
Proof. exact (extract_columns_identifiers text). Qed.

End Columns.

(** ** The table names the suggester extracts *)

Lemma lstrip_chars_suffix (cs s : str) :
  exists pre, s = pre ++ lstrip_chars cs s.
Proof.
  induction s as [|c s [pre IH]]; [exists []; reflexivity|].
  cbn. destruct (char_in cs c).
  - exists (c :: pre). cbn. now rewrite <- IH.
  - exists []. reflexivity.
Qed.

Lemma lstrip_chars_head (cs s : str) (c : char) :
  hd_error (lstrip_chars cs s) = Some c -> char_in cs c = false.
Proof.
  induction s as [|a s IH]; [discriminate|].
  cbn. destruct (char_in cs a) eqn:E; [exact IH|].
  cbn. intros H. injection H as <-. exact E.
Qed.

Lemma hd_error_suffix {A} (pre s : list A) (c : A) :
  hd_error (rev s) = Some c -> hd_error (rev (pre ++ s)) = Some c.
Proof.
  rewrite rev_app_distr. destruct (rev s); [discriminate|]. cbn. auto.
Qed.

(** [strip] with a set of characters keeps a part of the text that neither
    begins nor ends with a character of the set. *)
Lemma strip_chars_spec (cs s : str) :
  (forall P, forallb P s = true -> forallb P (strip_chars cs s) = true) /\
  (forall c, hd_error (strip_chars cs s) = Some c -> char_in cs c = false) /\
  (forall c, hd_error (rev (strip_chars cs s)) = Some c -> char_in cs c = false).
Proof.
  unfold strip_chars.
  destruct (lstrip_chars_suffix cs s) as [p1 H1].
  destruct (lstrip_chars_suffix cs (rev (lstrip_chars cs s))) as [p2 H2].
  set (u := lstrip_chars cs s) in *.
  set (v := lstrip_chars cs (rev u)) in *.
  split; [|split].
  - intros P HP. rewrite H1, forallb_app in HP.
    apply andb_prop in HP. destruct HP as [_ Hu].
    assert (Hr : forallb P (rev u) = true).
    { rewrite forallb_forall in *. intros x Hx. apply Hu, in_rev, Hx. }
    rewrite H2, forallb_app in Hr. apply andb_prop in Hr. destruct Hr as [_ Hv].
    rewrite forallb_forall in *. intros x Hx. apply Hv, in_rev, Hx.
  - intros c Hc.
    apply (lstrip_chars_head cs s c). fold u.
    assert (Hu : u = rev v ++ rev p2).
    { rewrite <- rev_app_distr, <- H2. symmetry. apply rev_involutive. }
    rewrite Hu. destruct (rev v); [discriminate|]. exact Hc.
  - intros c Hc. rewrite rev_involutive in Hc.
    exact (lstrip_chars_head cs (rev u) c Hc).
Qed.

Section Tables.
Context {rt : Runtime}.

Lemma re_keyword_token_group (keyword w : str) (g' : option str) :
  matches (re_keyword_token keyword) w None g' ->
  exists x, g' = Some x /\ (x <> [] /\ forallb token_char x = true).
Proof.
  unfold re_keyword_token. cbn [matches].
  intros [w1 [w2 [g1 [_ [_ [w3 [w4 [g2 [_ [_ [[g3 [Hlen [Hw _]]] ->]]]]]]]]]]].
  exists w4. split; [reflexivity|]. split; [|exact Hw].
  destruct w4; [cbn in Hlen; lia | discriminate].
Qed.

Lemma str_eqb_nil (t : str) : str_eqb t [] = false -> t <> [].
Proof. destruct t; [discriminate | discriminate]. Qed.

(** One step of the inner loop keeps the names well formed. *)
Lemma table_step (tables : list str) (m : str) :
  forallb token_char m = true ->
  Forall table_name_ok tables ->
  Forall table_name_ok
    (let table := strip_chars ([chr "`"; dquote] ++ lit "[]") m in
     if negb (str_eqb table [])
        && negb (str_in (str_upper table)
                   [lit "WHERE"; lit "ON"; lit "SELECT"; lit "AS"])
     then tables ++ [table]
     else tables).
Proof.
  intros Hm Ht. cbv zeta.
  destruct (strip_chars_spec ([chr "`"; dquote] ++ lit "[]") m) as [Hall [Hhd Hlast]].
  set (table := strip_chars _ m) in *.
  destruct (str_eqb table []) eqn:E1; [exact Ht|].
  destruct (str_in (str_upper table) _) eqn:E2; [exact Ht|].
  cbn [negb andb]. apply Forall_app. split; [exact Ht|].
  constructor; [|constructor].
  unfold table_name_ok. repeat split.
  - apply str_eqb_nil, E1.
  - apply Hall, Hm.
  - exact E2.
  - exact Hhd.
  - exact Hlast.
Qed.

Lemma extract_table_names_spec (text : str) :
  exists tables,
    _extract_table_names (Some text) = Ok tables /\
    NoDup tables /\ Forall table_name_ok tables.
Proof.
  unfold _extract_table_names. cbn [text_arg bind]. cbv zeta.
  eexists. split; [reflexivity|]. split; [apply list_of_set_NoDup|].
  apply Forall_forall. intros t Ht.
  apply (proj1 (list_of_set_In _ _)) in Ht. revert t Ht.
  apply Forall_forall.
  assert (Hinner : forall (keyword : str) ms tables,
            Forall (fun m => m <> [] /\ forallb token_char m = true) ms ->
            Forall table_name_ok tables ->
            Forall table_name_ok
              (fold_left (fun tables m =>
                 let table := strip_chars ([chr "`"; dquote] ++ lit "[]") m in
                 if negb (str_eqb table [])
                    && negb (str_in (str_upper table)
                               [lit "WHERE"; lit "ON"; lit "SELECT"; lit "AS"])
                 then tables ++ [table]
                 else tables) ms tables)).
  { intros _ ms. induction ms as [|m ms IH]; intros tables Hms Ht; [exact Ht|].
    inversion Hms as [|? ? [_ Hm] Hms']; subst.
    cbn [fold_left]. apply IH; [exact Hms'|]. apply table_step; assumption. }
  assert (Houter : forall keywords tables,
            Forall table_name_ok tables ->
            Forall table_name_ok
              (fold_left (fun tables keyword =>
                 let matches := re_findall (re_keyword_token keyword) text in
                 fold_left (fun tables m =>
                   let table := strip_chars ([chr "`"; dquote] ++ lit "[]") m in
                   if negb (str_eqb table [])
                      && negb (str_in (str_upper table)
                                 [lit "WHERE"; lit "ON"; lit "SELECT"; lit "AS"])
                   then tables ++ [table]
                   else tables) matches tables) keywords tables)).
  { induction keywords as [|k ks IH]; intros tables Ht; [exact Ht|].
    cbn [fold_left]. apply IH. cbv zeta. apply (Hinner k); [|exact Ht].
    apply re_findall_groups. apply re_keyword_token_group. }
  exact (Houter [lit "FROM"; lit "JOIN"; lit "INTO"; lit "UPDATE"; lit "TABLE"]
           [] (Forall_nil _)).
Qed.

(** X4. The table names [_extract_table_names] returns are distinct, and
    each is non-empty, free of white space, commas and semicolons, neither
    begins nor ends with a back quote, double quote or square bracket, and
    is not WHERE, ON, SELECT or AS in any letter case. *)
Theorem extracted_table_names_well_formed (text : str) :
  exists tables,
    _extract_table_names (Some text) = Ok tables /\
    NoDup tables /\ Forall table_name_ok tables.
Proof. exact (extract_table_names_spec text). Qed.

End Tables.

(** ** The statements the suggester writes *)

Section Templates.
Context {rt : Runtime}.

Lemma lstrip_head (c : char) (s : str) :
  is_space c = false -> lstrip (c :: s) = c :: s.
Proof. intros H. cbn. now rewrite H. Qed.

(** A text between two line feeds that neither begins nor ends with white
    space is what [strip] leaves. *)
Lemma strip_framed (x y : str) (a z : char) (x1 x2 : str) :
  y = nl ++ x ++ nl ->
  x = a :: x1 -> x = x2 ++ [z] ->
  is_space a = false -> is_space z = false ->
  strip y = x.
Proof.
  intros -> Ha Hz Sa Sz.
  rewrite (strip_surrounded nl x nl) by reflexivity.
  unfold strip. rewrite Ha at 1. rewrite (lstrip_head a x1 Sa), <- Ha.
  rewrite Hz at 1. rewrite rev_app_distr. cbn [rev app].
  rewrite (lstrip_head z (rev x2) Sz).
  cbn [rev]. rewrite rev_involutive. symmetry. exact Hz.
Qed.

(** A text that neither begins nor ends with white space is left as it
    is. *)
Lemma strip_exact (x : str) (a z : char) (x1 x2 : str) :
  x = a :: x1 -> x = x2 ++ [z] ->
  is_space a = false -> is_space z = false ->
  strip x = x.
Proof.
  intros Ha Hz Sa Sz.
  unfold strip. rewrite Ha at 1. rewrite (lstrip_head a x1 Sa), <- Ha.
  rewrite Hz at 1. rewrite rev_app_distr. cbn [rev app].
  rewrite (lstrip_head z (rev x2) Sz).
  cbn [rev]. rewrite rev_involutive. symmetry. exact Hz.
Qed.

Lemma index_create_stripped (columns : list str) :
  strip (nl ++ lit "-- 为表添加索引建议" ++ nl
           ++ lit "CREATE INDEX idx_optimization ON your_table ("
           ++ join (lit ", ") columns ++ lit ");" ++ nl)
  = index_template columns.
Proof.
  unfold index_template. set (J := join (lit ", ") columns).
  eapply (strip_framed _ _ (chr "-") (chr ";")).
  - rewrite <- !app_assoc. reflexivity.
  - let v := eval vm_compute in (lit "-- 为表添加索引建议") in
    change (lit "-- 为表添加索引建议") with v.
    cbn [app]. reflexivity.
  - change (lit ");") with (lit ")" ++ [chr ";"]). rewrite !app_assoc. reflexivity.
  - reflexivity.
  - reflexivity.
Qed.

Lemma select_template_stripped (table : str) :
  strip (select_template table) = select_template table.
Proof.
  unfold select_template.
  eapply (strip_exact _ (chr "-") (chr ";")).
  - let v := eval vm_compute in (lit "-- 建议指定具体列名") in
    change (lit "-- 建议指定具体列名") with v.
    cbn [app]. reflexivity.
  - change (lit " WHERE ...;") with (lit " WHERE ..." ++ [chr ";"]).
    rewrite !app_assoc. reflexivity.
  - reflexivity.
  - reflexivity.
Qed.

(** X5. The statement of the index suggestion is the CREATE INDEX template
    with the extracted columns: each column once, every one an identifier,
    and exactly the columns the three extractions found; when they found
    none, the template names the placeholder column instead of an empty
    list. *)
Theorem index_suggestion_columns (q : SlowQueryInfo) (p : QueryProblem)
    (text : str) :
  query_text q = Some text ->
  exists s columns where_columns order_columns join_columns,
    _suggest_index_optimization q p = Ok s /\
    _extract_where_columns (Some text) = Ok where_columns /\
    _extract_order_columns (Some text) = Ok order_columns /\
    _extract_join_columns (Some text) = Ok join_columns /\
    suggested_sql s = Some (index_template columns) /\
    NoDup columns /\
    match where_columns ++ order_columns ++ join_columns with
    | [] => columns = [placeholder_column]
    | found =>
      Forall (fun c => is_identifier c = true) columns /\
      forall c, In c columns <-> In c found
    end.
Proof.
  intros Hq.
  destruct (extract_columns_identifiers text) as [wc [oc [jc [Hw [Ho [Hj Hid]]]]]].
  unfold _suggest_index_optimization. cbv zeta. rewrite Hq, Hw, Ho, Hj.
  cbn [bind].
  set (found := wc ++ oc ++ jc) in *.
  set (columns := match list_of_set found with
                  | [] => [lit "相关列"]
                  | _ :: _ => list_of_set found
                  end).
  exists {|
    title := lit "添加索引优化查询";
    suggestion_description :=
      lit "查询执行时间过长（" ++ format_2f (execution_time q)
        ++ lit "s），建议为相关列添加索引";
    priority := lit "HIGH";
    category := lit "INDEX";
    original_sql := Some text;
    suggested_sql := Some (strip (nl ++ lit "-- 为表添加索引建议" ++ nl
       ++ lit "CREATE INDEX idx_optimization ON your_table ("
       ++ join (lit ", ") columns ++ lit ");" ++ nl));
    estimated_improvement := Some (lit "预计可提升 50%-90% 的查询性能");
    implementation_notes :=
      Some (lit "1. 确认 " ++ join (lit ", ") columns ++ lit " 列的选择性" ++ nl
              ++ lit "2. 考虑创建复合索引" ++ nl ++ lit "3. 分析索引的使用频率") |},
    columns, wc, oc, jc.
  split; [reflexivity|]. do 3 (split; [reflexivity|]).
  split; [cbn [suggested_sql]; now rewrite index_create_stripped|].
  assert (Hin := list_of_set_In found). assert (Hnd := list_of_set_NoDup found).
  subst columns. change (wc ++ oc ++ jc) with found. clearbody found.
  destruct found as [|c0 found'].
  - destruct (list_of_set []) as [|x l] eqn:E.
    + cbv iota. split; [|reflexivity]. repeat constructor. intros [].
    + exfalso. apply (proj1 (Hin x)). now left.
  - destruct (list_of_set (c0 :: found')) as [|x l] eqn:E.
    + exfalso. apply (proj2 (Hin c0)). now left.
    + cbv iota. split; [exact Hnd|]. split; [|exact Hin].
      apply Forall_forall. intros c Hc. apply Hin in Hc.
      revert c Hc. apply Forall_forall. exact Hid.
Qed.

(** X6. The statement of the SELECT-star suggestion is the SELECT template
    over the first table name the extraction returns, a well-formed name,
    or over your_table when it returns none. *)
Theorem specific_columns_table (q : SlowQueryInfo) (p : QueryProblem)
    (text : str) :
  query_text q = Some text ->
  exists s tables,
    _suggest_specific_columns q p = Ok s /\
    _extract_table_names (Some text) = Ok tables /\
    suggested_sql s = Some (select_template (hd (lit "your_table") tables)) /\
    Forall table_name_ok tables.
Proof.
  intros Hq. destruct (extract_table_names_spec text) as [tables [Ht [_ Hok]]].
  unfold _suggest_specific_columns. cbv zeta. rewrite Hq, Ht. cbn [bind].
  eexists. exists tables. split; [reflexivity|]. split; [reflexivity|].
  split; [|exact Hok]. cbn [suggested_sql]. f_equal.
  destruct tables as [|table tables']; cbn [hd].
  - change (lit "-- 建议指定具体列名" ++ nl
              ++ lit "SELECT col1, col2, col3 FROM your_table WHERE ...;")
      with (select_template (lit "your_table")).
    apply select_template_stripped.
  - apply select_template_stripped.
Qed.

End Templates.

Lemma index_suggestion_columns_witness :
  exists s,
    @_suggest_index_optimization Sample.runtime
      (Sample.record (Some (lit "SELECT a FROM t WHERE b = 1 ORDER BY c")) 12.5 0 0 0)
      select_star_problem = Ok s /\
    suggested_sql s = Some (index_template [lit "b"; lit "c"]).
Proof.
  destruct (@index_suggestion_columns Sample.runtime
              (Sample.record (Some (lit "SELECT a FROM t WHERE b = 1 ORDER BY c"))
                 12.5 0 0 0)
              select_star_problem _ eq_refl)
    as [s [columns [wc [oc [jc [Hs _]]]]]].
  exists s. split; [exact Hs|].
  vm_compute in Hs. injection Hs as <-. vm_compute. reflexivity.
Defined.

Lemma specific_columns_table_witness :
  exists s,
    @_suggest_specific_columns Sample.runtime
      (Sample.record (Some (lit "SELECT * FROM orders")) 0.25 0 0 0)
      select_star_problem = Ok s /\
    suggested_sql s = Some (select_template (lit "orders")).
Proof.
  destruct (@specific_columns_table Sample.runtime
              (Sample.record (Some (lit "SELECT * FROM orders")) 0.25 0 0 0)
              select_star_problem _ eq_refl)
    as [s [tables [Hs _]]].
  exists s. split; [exact Hs|].
  vm_compute in Hs. injection Hs as <-. vm_compute. reflexivity.
Defined.

(** ** Rewriting a LIKE pattern *)

Section LikeRewrite.
Context {rt : Runtime}.

Lemma matches_LitCI_length (p : str) :
  forall w g g', matches (LitCI p) w g g' -> List.length w = List.length p /\ g' = g.
Proof.
  induction p as [|a p IH]; cbn [LitCI matches].
  - intros w g g' [-> ->]. auto.
  - intros w g g' [w1 [w2 [g1 [-> [[c [-> [_ ->]]] M]]]]].
    destruct (IH _ _ _ M) as [H ->]. cbn. auto.
Qed.

Lemma re_like_rewrite_length (w : str) (g' : option str) :
  matches re_like_rewrite w None g' -> 7 <= List.length w.
Proof.
  unfold re_like_rewrite. cbn [matches].
  intros [w1 [w2 [g1 [-> [M1 M2]]]]].
  destruct M2 as [w3 [w4 [g2 [-> [[H3 _] M3]]]]].
  destruct M3 as [w5 [w6 [g3 [-> [[c5 [-> _]] [c6 [-> _]]]]]]].
  apply matches_LitCI_length in M1. destruct M1 as [M1 _].
  rewrite !length_app, M1. cbn. lia.
Qed.

(** The first search of the iteration is [re.search]. *)
Lemma re_finditer_first (r : regex) (s : str) :
  match re_search r s with
  | None => re_finditer r s = []
  | Some m => exists ms, re_finditer r s = m :: ms
  end.
Proof.
  unfold re_finditer, re_search.
  replace (2 * List.length s + 2) with (S (2 * List.length s + 1)) by lia.
  cbn [finditer_from search_next].
  destruct (search_from r [] None s) as [m|]; [eexists|]; reflexivity.
Qed.

(** A replacement shorter than every match shortens the text, by one
    character at least for each match. *)
Lemma re_sub_shorter (r : regex) (repl s : str) :
  (forall w g', matches r w None g' -> List.length repl < List.length w) ->
  List.length (re_sub r repl s) + List.length (re_finditer r s) <= List.length s.
Proof.
  intros Hlen. unfold re_sub, re_finditer.
  destruct (finditer_from_sound r (2 * List.length s + 2) false None s)
    as [Hcat Hall].
  set (ms := finditer_from _ r false None s) in *.
  assert (Hl : List.length (flat_map (fun m => m_before m ++ m_text m) ms)
               + List.length (tail_text ms s) = List.length s)
    by (rewrite <- length_app, Hcat; reflexivity).
  rewrite length_app.
  assert (H : List.length (flat_map (fun m => m_before m ++ repl) ms)
              + List.length ms
              <= List.length (flat_map (fun m => m_before m ++ m_text m) ms)).
  { clear Hcat Hl. induction Hall as [|m ms' M _ IH]; [cbn; lia|].
    cbn [flat_map List.length]. rewrite !length_app.
    specialize (Hlen _ _ M). lia. }
  lia.
Qed.

(** X7. The statement the LIKE suggestion proposes is never longer than
    the original: it is the original where [LIKE], white space, a quote and
    a percent sign do not occur in it, and strictly shorter where they
    do. *)
Theorem like_rewrite_shortens (q : SlowQueryInfo) (p : QueryProblem) (text : str) :
  query_text q = Some text ->
  exists s rewritten,
    _suggest_like_optimization q p = Ok s /\
    suggested_sql s = Some rewritten /\
    List.length rewritten <= List.length text /\
    match re_search re_like_rewrite text with
    | None => rewritten = text
    | Some _ => List.length rewritten < List.length text
    end.
Proof.
  intros Hq. unfold _suggest_like_optimization. cbv zeta. rewrite Hq.
  cbn [text_arg bind]. eexists. exists (re_sub re_like_rewrite (lit "LIKE '") text).
  split; [reflexivity|]. split; [reflexivity|].
  assert (Hs := re_sub_shorter re_like_rewrite (lit "LIKE '") text).
  assert (Hlen : forall w g', matches re_like_rewrite w None g' ->
                   List.length (lit "LIKE '") < List.length w).
  { intros w g' M. apply re_like_rewrite_length in M.
    change (List.length (lit "LIKE '")) with 6. lia. }
  specialize (Hs Hlen). split; [lia|].
  assert (Hf := re_finditer_first re_like_rewrite text).
  destruct (re_search re_like_rewrite text) as [m|].
  - destruct Hf as [ms Hf]. rewrite Hf in Hs. cbn [List.length] in Hs. lia.
  - unfold re_sub. rewrite Hf. reflexivity.
Qed.

End LikeRewrite.

Lemma like_rewrite_shortens_witness :
  exists s rewritten,
    @_suggest_like_optimization Sample.runtime
      (Sample.record (Some sql_like_smith) 0.25 0 0 0) like_prefix_problem = Ok s /\
    suggested_sql s = Some rewritten /\
    List.length rewritten <= List.length sql_like_smith.
Proof.
  destruct (@like_rewrite_shortens Sample.runtime
              (Sample.record (Some sql_like_smith) 0.25 0 0 0)
              like_prefix_problem _ eq_refl)
    as [s [rewritten [Hs [Hr [Hl _]]]]].
  exists s, rewritten. auto.
Defined.

(** ** What the detection passes report together *)

Lemma matches_Lit (p : str) :
  forall w g g', matches (Lit p) w g g' -> w = p /\ g' = g.
Proof.
  induction p as [|a p IH]; cbn [Lit matches].
  - intros w g g' [-> ->]. auto.
  - intros w g g' [w1 [w2 [g1 [-> [[c [-> [Hc ->]]] M]]]]].
    destruct (IH _ _ _ M) as [-> ->]. apply N.eqb_eq in Hc. subst. auto.
Qed.

Lemma startswith_prefix (p s : str) : startswith p (p ++ s) = true.
Proof. induction p as [|a p IH]; [reflexivity|]. cbn. now rewrite N.eqb_refl. Qed.

Lemma contains_app (p a b : str) : contains p (a ++ p ++ b) = true.
Proof.
  induction a as [|c a IH].
  - cbn [app]. destruct (p ++ b) eqn:E; cbn [contains];
      rewrite <- E, startswith_prefix; reflexivity.
  - cbn [app contains]. rewrite IH. apply orb_true_r.
Qed.

Section Together.
Context {rt : Runtime}.

Lemma re_where_contains (sql : str) (m : match_obj) :
  re_search re_where sql = Some m -> contains (lit "WHERE") sql = true.
Proof.
  intros H. destruct (re_search_sound _ _ _ H) as [Hs M].
  unfold re_where in M. cbn [matches] in M.
  destruct M as [w1 [w2 [g1 [Hw [M1 _]]]]].
  apply matches_Lit in M1. destruct M1 as [-> _].
  rewrite Hs, Hw, <- app_assoc. apply contains_app.
Qed.

Lemma function_in_where_contains (sql : str) :
  function_in_where sql = true -> contains (lit "WHERE") sql = true.
Proof.
  unfold function_in_where.
  destruct (re_search re_where sql) as [m|] eqn:E; [|discriminate].
  intros _. exact (re_where_contains sql m E).
Qed.

(** The types of the structure pass, each with its condition. *)
Lemma structure_checks_types (sql : str) (ty : ProblemType) :
  Exists (has_type ty) (structure_checks sql []) <->
  (ty = SELECT_STAR /\ contains (lit "SELECT *") sql = true) \/
  (ty = OR_CONDITION /\
   is_some (re_search re_or sql) && contains (lit "WHERE") sql = true) \/
  (ty = LIKE_PREFIX_WILDCARD /\ is_some (re_search re_like_prefix sql) = true) \/
  (ty = FUNCTION_IN_WHERE /\ function_in_where sql = true) \/
  (ty = NO_WHERE_CLAUSE /\ lacks_where sql = true) \/
  (ty = SUBQUERY_INEFFICIENT /\ is_some (re_search re_subquery sql) = true).
Proof.
  rewrite structure_checks_emits, !Exists_app, !Exists_emit.
  unfold has_type. cbn [problem_type select_star_problem or_condition_problem
    like_prefix_problem function_in_where_problem no_where_problem
    subquery_problem].
  intuition (subst; auto).
Qed.

(** An analysis that returns was given a text, and is the four passes in
    a row. *)
Lemma analyze_query_Ok (self : QueryAnalyzer) (q : SlowQueryInfo)
    (plan : option Plan) (l : list QueryProblem) :
  analyze_query self q plan = Ok l ->
  exists text, query_text q = Some text /\
    l = _analyze_execution_time q ++ _analyze_scan_data self q
          ++ structure_result text ++ plan_result plan.
Proof.
  destruct (query_text q) as [text|] eqn:Hq.
  - rewrite (analyze_query_text self q plan text Hq). intros H.
    injection H as <-. eauto.
  - unfold analyze_query, _analyze_sql_structure. rewrite Hq. discriminate.
Qed.

Lemma structure_result_types (text : str) (ty : ProblemType) :
  Exists (has_type ty) (structure_result text) ->
  Exists (has_type ty) (structure_checks (str_upper text) []).
Proof.
  unfold structure_result.
  destruct (sqlparse_parse text) as [[|st stmts]|e]; auto;
    intros H; inversion H.
Qed.

(** X8. A missing WHERE clause is never reported together with an OR
    condition or with a function in the WHERE clause: both of these need
    the word WHERE in the text. *)
Theorem no_where_excludes_where_problems (self : QueryAnalyzer)
    (q : SlowQueryInfo) (plan : option Plan) (l : list QueryProblem) :
  analyze_query self q plan = Ok l ->
  Exists (has_type NO_WHERE_CLAUSE) l ->
  ~ Exists (has_type OR_CONDITION) l /\ ~ Exists (has_type FUNCTION_IN_WHERE) l.
Proof.
  intros H Hno. destruct (analyze_query_Ok _ _ _ _ H) as [text [Hq ->]].
  apply structure_only in Hno;
    [|intros [X|[X|[X|[]]]]; discriminate X].
  apply structure_result_types, structure_checks_types in Hno.
  assert (Hw : contains (lit "WHERE") (str_upper text) = false).
  { destruct Hno as [[X _]|[[X _]|[[X _]|[[X _]|[[_ Hl]|[X _]]]]]];
      try discriminate X.
    unfold lacks_where in Hl.
    destruct (contains (lit "WHERE") (str_upper text)); [|reflexivity].
    rewrite andb_false_r in Hl. discriminate Hl. }
  split; intros Hex;
    (apply structure_only in Hex; [|intros [X|[X|[X|[]]]]; discriminate X]);
    apply structure_result_types, structure_checks_types in Hex;
    destruct Hex as [[X Hc]|[[X Hc]|[[X Hc]|[[X Hc]|[[X Hc]|[X Hc]]]]]];
    try discriminate X.
  - rewrite Hw, andb_false_r in Hc. discriminate Hc.
  - apply function_in_where_contains in Hc. rewrite Hw in Hc. discriminate Hc.
Qed.

End Together.

Lemma no_where_excludes_where_problems_witness :
  exists l,
    @analyze_query Sample.runtime (QueryAnalyzer_init None)
      (Sample.record (Some sql_customers) 0.25 0 0 0) None = Ok l /\
    Exists (has_type NO_WHERE_CLAUSE) l /\
    ~ Exists (has_type OR_CONDITION) l /\ ~ Exists (has_type FUNCTION_IN_WHERE) l.
Proof.
  exists [no_where_problem].
  assert (H : @analyze_query Sample.runtime (QueryAnalyzer_init None)
                (Sample.record (Some sql_customers) 0.25 0 0 0) None
              = Ok [no_where_problem]) by (vm_compute; reflexivity).
  assert (E : Exists (has_type NO_WHERE_CLAUSE) [no_where_problem])
    by (constructor; reflexivity).
  split; [exact H|]. split; [exact E|].
  exact (@no_where_excludes_where_problems Sample.runtime _ _ _ _ H E).
Defined.

Lemma count_type_app (ty : ProblemType) (a b : list QueryProblem) :
  count_type ty (a ++ b) = count_type ty a + count_type ty b.
Proof. unfold count_type. now rewrite filter_app, length_app. Qed.

Lemma count_type_emit (ty : ProblemType) (c : bool) (p : QueryProblem) :
  count_type ty (emit c p)
  = if c && ProblemType_eqb (problem_type p) ty then 1 else 0.
Proof.
  unfold count_type, emit. destruct c; [|reflexivity].
  cbn [filter andb]. now destruct (ProblemType_eqb (problem_type p) ty).
Qed.

Lemma count_type_none (ty : ProblemType) (l : list QueryProblem) :
  ~ Exists (has_type ty) l -> count_type ty l = 0.
Proof.
  unfold count_type. induction l as [|p l IH]; [reflexivity|].
  intros H. cbn [filter].
  destruct (ProblemType_eqb (problem_type p) ty) eqn:E.
  - exfalso. apply H. left. unfold has_type.
    destruct (problem_type p), ty; try discriminate E; reflexivity.
  - apply IH. intros X. apply H. now right.
Qed.

Section Multiplicity.
Context {rt : Runtime}.

Lemma count_execution_time (ty : ProblemType) (q : SlowQueryInfo) :
  count_type ty (_analyze_execution_time q)
  <= match ty with FULL_TABLE_SCAN => 1 | _ => 0 end.
Proof.
  unfold _analyze_execution_time, count_type. cbv zeta.
  destruct (10.0 <=? execution_time q)%float;
    [|destruct (5.0 <=? execution_time q)%float];
    cbn [app filter problem_type]; destruct ty; cbn; lia.
Qed.

Lemma count_scan_data (ty : ProblemType) (self : QueryAnalyzer) (q : SlowQueryInfo) :
  count_type ty (_analyze_scan_data self q)
  <= match ty with TOO_MANY_ROWS => 2 | MEMORY_INTENSIVE => 1 | _ => 0 end.
Proof.
  unfold _analyze_scan_data, count_type. cbv zeta.
  destruct (scan_rows q >? max_scan_rows self)%Z;
    destruct (scan_bytes q >? max_scan_bytes self)%Z;
    destruct (memory_used q >? 536870912)%Z;
    cbn [app filter problem_type]; destruct ty; cbn; lia.
Qed.

Lemma count_plan (ty : ProblemType) (plan : option Plan) :
  count_type ty (plan_result plan)
  <= match ty with FULL_TABLE_SCAN => 1 | _ => 0 end.
Proof.
  unfold plan_result, _analyze_execution_plan, count_type. cbv zeta.
  destruct plan as [p|]; [|destruct ty; cbn; lia].
  destruct (plan_truthy p); [|destruct ty; cbn; lia].
  destruct (_ || _); cbn [app filter problem_type]; destruct ty; cbn; lia.
Qed.

Lemma count_structure_checks (ty : ProblemType) (sql : str) :
  count_type ty (structure_checks sql [])
  <= match ty with
     | SELECT_STAR | OR_CONDITION | LIKE_PREFIX_WILDCARD | FUNCTION_IN_WHERE
     | NO_WHERE_CLAUSE | SUBQUERY_INEFFICIENT => 1
     | _ => 0
     end.
Proof.
  rewrite structure_checks_emits, !count_type_app, !count_type_emit.
  cbn [problem_type select_star_problem or_condition_problem
    like_prefix_problem function_in_where_problem no_where_problem
    subquery_problem].
  destruct ty; cbn [ProblemType_eqb]; rewrite ?andb_false_r, ?andb_true_r;
    repeat match goal with |- context [if ?b then _ else _] => destruct b end;
    lia.
Qed.

Lemma count_structure_result (ty : ProblemType) (text : str) :
  count_type ty (structure_result text)
  <= match ty with
     | SELECT_STAR | OR_CONDITION | LIKE_PREFIX_WILDCARD | FUNCTION_IN_WHERE
     | NO_WHERE_CLAUSE | SUBQUERY_INEFFICIENT => 1
     | _ => 0
     end.
Proof.
  unfold structure_result.
  destruct (sqlparse_parse text) as [[|st stmts]|e];
    [destruct ty; cbn; lia | apply count_structure_checks | destruct ty; cbn; lia].
Qed.

(** The structure pass reports five problems at most: a missing WHERE
    clause excludes two of the six. *)
Lemma length_structure_checks (sql : str) :
  List.length (structure_checks sql []) <= 5.
Proof.
  rewrite structure_checks_emits, !length_app. unfold emit.
  destruct (lacks_where sql) eqn:El.
  - assert (Hw : contains (lit "WHERE") sql = false).
    { unfold lacks_where in El.
      destruct (contains (lit "WHERE") sql); [|reflexivity].
      rewrite andb_false_r in El. discriminate El. }
    rewrite Hw, andb_false_r.
    destruct (function_in_where sql) eqn:Ef.
    + apply function_in_where_contains in Ef. rewrite Hw in Ef. discriminate Ef.
    + repeat match goal with |- context [if ?b then _ else _] => destruct b end;
        cbn; lia.
  - repeat match goal with |- context [if ?b then _ else _] => destruct b end;
      cbn; lia.
Qed.

Lemma length_structure_result (text : str) :
  List.length (structure_result text) <= 5.
Proof.
  unfold structure_result.
  destruct (sqlparse_parse text) as [[|st stmts]|e];
    [cbn; lia | apply length_structure_checks | cbn; lia].
Qed.

(** X9. Whatever the query, [analyze_query] reports ten problems at most;
    a full table scan and too many rows are reported twice at most, the
    other seven types it knows once at most, and NO_INDEX,
    JOIN_INEFFICIENT, ORDERBY_EXPENSIVE, GROUPBY_EXPENSIVE and
    LARGE_RESULT_SET are never reported. *)
Theorem analyze_query_report_bounds (self : QueryAnalyzer) (q : SlowQueryInfo)
    (plan : option Plan) (l : list QueryProblem) :
  analyze_query self q plan = Ok l ->
  List.length l <= 10 /\
  (forall ty, count_type ty l <= max_reports ty) /\
  Forall (fun p => In (problem_type p) reported_types) l.
Proof.
  intros H. destruct (analyze_query_Ok _ _ _ _ H) as [text [Hq ->]].
  assert (Hcount : forall ty,
            count_type ty (_analyze_execution_time q ++ _analyze_scan_data self q
                             ++ structure_result text ++ plan_result plan)
            <= max_reports ty).
  { intros ty. rewrite !count_type_app.
    assert (H1 := count_execution_time ty q).
    assert (H2 := count_scan_data ty self q).
    assert (H3 := count_structure_result ty text).
    assert (H4 := count_plan ty plan).
    destruct ty; cbn [max_reports] in *; lia. }
  split; [|split].
  - rewrite !length_app.
    assert (H1 : List.length (_analyze_execution_time q) <= 1).
    { unfold _analyze_execution_time. cbv zeta.
      destruct (10.0 <=? _)%float; [|destruct (5.0 <=? _)%float]; cbn; lia. }
    assert (H2 : List.length (_analyze_scan_data self q) <= 3).
    { unfold _analyze_scan_data. cbv zeta.
      destruct (_ >? _)%Z; destruct (_ >? _)%Z; destruct (_ >? _)%Z; cbn; lia. }
    assert (H3 := length_structure_result text).
    assert (H4 : List.length (plan_result plan) <= 1).
    { unfold plan_result, _analyze_execution_plan. cbv zeta.
      destruct plan as [p|]; [|cbn; lia].
      destruct (plan_truthy p); [|cbn; lia]. destruct (_ || _); cbn; lia. }
    lia.
  - exact Hcount.
  - apply Forall_forall. intros p Hp.
    specialize (Hcount (problem_type p)).
    assert (Hpos : 1 <= count_type (problem_type p)
                          (_analyze_execution_time q ++ _analyze_scan_data self q
                             ++ structure_result text ++ plan_result plan)).
    { clear Hcount. revert Hp.
      generalize (_analyze_execution_time q ++ _analyze_scan_data self q
                    ++ structure_result text ++ plan_result plan).
      intros l Hp. unfold count_type.
      induction l as [|p' l IH]; [contradiction Hp|].
      cbn [filter]. destruct Hp as [->|Hp].
      - replace (ProblemType_eqb (problem_type p) (problem_type p)) with true
          by (destruct (problem_type p); reflexivity).
        cbn. lia.
      - specialize (IH Hp).
        destruct (ProblemType_eqb (problem_type p') (problem_type p)); cbn; lia. }
    unfold reported_types.
    destruct (problem_type p); cbn [max_reports] in Hcount; cbn [In];
      try lia; auto 10.
Qed.

(** A text that begins with an ASCII white-space character does not begin
    with SELECT once upper-cased. *)
Lemma leading_blank_not_select (c : char) (rest : str) :
  is_space_ascii c = true ->
  startswith (lit "SELECT") (str_upper (c :: rest)) = false.
Proof.
  intros H. unfold is_space_ascii in H.
  assert (Hc : (c <= 32)%N).
  { apply orb_prop in H. destruct H as [H|H]; apply andb_prop in H;
      destruct H as [_ H]; apply N.leb_le in H; lia. }
  unfold str_upper. cbn [flat_map].
  replace (c <? 128)%N with true by (symmetry; apply N.ltb_lt; lia).
  unfold upper_ascii, is_lower_ascii.
  replace (97 <=? c)%N with false by (symmetry; apply N.leb_gt; lia).
  cbn [andb app].
  change (lit "SELECT") with (83%N :: lit "ELECT"). cbn [startswith].
  replace (83 =? c)%N with false by (symmetry; apply N.eqb_neq; lia).
  reflexivity.
Qed.

(** X10. White space in front of a statement hides a missing WHERE clause:
    the structure pass tests the upper-cased text as it stands for the
    prefix SELECT, so a text that begins with an ASCII white-space
    character is never reported for NO_WHERE_CLAUSE, while
    [get_query_type], which strips the text first, gives it the type of
    the text without that character. *)
Theorem leading_blank_hides_missing_where (self : QueryAnalyzer)
    (q : SlowQueryInfo) (plan : option Plan) (c : char) (rest : str)
    (l : list QueryProblem) :
  is_space_ascii c = true ->
  query_text q = Some (c :: rest) ->
  analyze_query self q plan = Ok l ->
  ~ Exists (has_type NO_WHERE_CLAUSE) l /\
  get_query_type (c :: rest) = get_query_type rest.
Proof.
  intros Hc Hq H. split.
  - rewrite (analyze_query_text self q plan _ Hq) in H. injection H as <-.
    intros Hno.
    apply structure_only in Hno; [|intros [X|[X|[X|[]]]]; discriminate X].
    apply structure_result_types, structure_checks_types in Hno.
    destruct Hno as [[X _]|[[X _]|[[X _]|[[X _]|[[_ Hl]|[X _]]]]]];
      try discriminate X.
    unfold lacks_where in Hl. rewrite (leading_blank_not_select c rest Hc) in Hl.
    discriminate Hl.
  - unfold get_query_type.
    assert (Hs : is_space c = true).
    { unfold is_space. unfold is_space_ascii in Hc.
      replace (c <? 128)%N with true; [exact Hc|].
      symmetry. apply N.ltb_lt.
      apply orb_prop in Hc. destruct Hc as [Hc|Hc]; apply andb_prop in Hc;
        destruct Hc as [_ Hc]; apply N.leb_le in Hc; lia. }
    assert (E : strip (c :: rest) = strip rest).
    { rewrite <- (strip_surrounded [c] rest []); [now rewrite app_nil_r|
        cbn; now rewrite Hs | reflexivity]. }
    rewrite E. reflexivity.
Qed.

End Multiplicity.

Lemma analyze_query_report_bounds_witness :
  exists l,
    @analyze_query Sample.runtime (QueryAnalyzer_init None)
      (Sample.record (Some sql_everything) 12.5 20000000 2147483648 1073741824)
      (Some plan_scan) = Ok l /\
    List.length l = 10 /\
    forall ty, count_type ty l <= max_reports ty.
Proof.
  destruct (@analyze_query Sample.runtime (QueryAnalyzer_init None)
              (Sample.record (Some sql_everything) 12.5 20000000 2147483648
                 1073741824)
              (Some plan_scan)) as [l|e] eqn:H;
    [|vm_compute in H; discriminate H].
  exists l. split; [reflexivity|].
  pose proof (@analyze_query_report_bounds Sample.runtime _ _ _ _ H) as [_ [T _]].
  split; [|exact T].
  vm_compute in H. injection H as <-. reflexivity.
Defined.

Lemma leading_blank_hides_missing_where_witness :
  exists l,
    @analyze_query Sample.runtime (QueryAnalyzer_init None)
      (Sample.record (Some (10%N :: sql_customers)) 0.25 0 0 0) None = Ok l /\
    ~ Exists (has_type NO_WHERE_CLAUSE) l /\
    @get_query_type Sample.runtime (10%N :: sql_customers) = SELECT.
Proof.
  destruct (@analyze_query Sample.runtime (QueryAnalyzer_init None)
              (Sample.record (Some (10%N :: sql_customers)) 0.25 0 0 0) None)
    as [l|e] eqn:H; [|vm_compute in H; discriminate H].
  exists l. split; [reflexivity|].
  destruct (@leading_blank_hides_missing_where Sample.runtime
              (QueryAnalyzer_init None)
              (Sample.record (Some (10%N :: sql_customers)) 0.25 0 0 0) None
              10%N sql_customers l eq_refl eq_refl H) as [T1 T2].
  split; [exact T1|]. etransitivity; [exact T2 | reflexivity].
Defined.

(** ** Filtering the collected queries *)

Lemma filter_comm {A} (f g : A -> bool) (l : list A) :
  filter f (filter g l) = filter g (filter f l).
Proof.
  induction l as [|x l IH]; [reflexivity|]. cbn [filter].
  destruct (g x) eqn:Eg, (f x) eqn:Ef; cbn [filter]; rewrite ?Eg, ?Ef, IH;
    reflexivity.
Qed.

Lemma filter_idem {A} (f : A -> bool) (l : list A) :
  filter f (filter f l) = filter f l.
Proof.
  induction l as [|x l IH]; [reflexivity|]. cbn [filter].
  destruct (f x) eqn:Ef; cbn [filter]; rewrite ?Ef, IH; reflexivity.
Qed.

Lemma filter_all {A} (f : A -> bool) (l : list A) :
  forallb f l = true -> filter f l = l.
Proof.
  induction l as [|x l IH]; [reflexivity|]. cbn [forallb filter].
  intros H. apply andb_prop in H. destruct H as [Hx Hl].
  now rewrite Hx, IH.
Qed.

Lemma forallb_filter {A} (f g : A -> bool) (l : list A) :
  forallb f l = true -> forallb f (filter g l) = true.
Proof.
  induction l as [|x l IH]; [reflexivity|]. cbn [forallb filter].
  intros H. apply andb_prop in H. destruct H as [Hx Hl].
  destruct (g x); [cbn [forallb]; rewrite Hx|]; auto.
Qed.

Section Filtering.
Context {rt : Runtime}.

Lemma filter_loop_spec (pattern : str) (queries : list SlowQueryInfo) :
  filter_loop pattern queries =
  if forallb has_text queries
  then Ok (filter (fun q => match query_text q with
                            | Some text => contains pattern (str_upper text)
                            | None => false
                            end) queries)
  else Raise AttributeError.
Proof.
  induction queries as [|q rest IH]; [reflexivity|].
  cbn [filter_loop forallb filter]. unfold has_text at 1.
  destruct (query_text q) as [text|]; [|reflexivity].
  cbn [upper_method bind is_some andb]. rewrite IH.
  destruct (forallb has_text rest); reflexivity.
Qed.

Lemma filter_by_pattern_spec (queries : list SlowQueryInfo) (pattern : str) :
  filter_by_pattern queries (Some pattern) =
  if forallb has_text queries
  then Ok (filter (text_contains pattern) queries)
  else Raise AttributeError.
Proof.
  unfold filter_by_pattern. cbn [upper_method bind]. apply filter_loop_spec.
Qed.

(** X11. A single query without a text makes [filter_by_pattern] raise
    AttributeError, whether or not any text contains the pattern; when
    every query has a text, the result is the queries, in their order,
    whose upper-cased text contains the upper-cased pattern. *)
Theorem filter_by_pattern_result (queries : list SlowQueryInfo) (pattern : str) :
  (Exists (fun q => query_text q = None) queries ->
   filter_by_pattern queries (Some pattern) = Raise AttributeError) /\
  (Forall (fun q => query_text q <> None) queries ->
   filter_by_pattern queries (Some pattern)
   = Ok (filter (text_contains pattern) queries)).
Proof.
  rewrite filter_by_pattern_spec. split; intros H.
  - replace (forallb has_text queries) with false; [reflexivity|].
    symmetry. induction H as [q l Hq|q l _ IH]; cbn [forallb].
    + unfold has_text. now rewrite Hq.
    + rewrite IH. apply andb_false_r.
  - replace (forallb has_text queries) with true; [reflexivity|].
    symmetry. induction H as [|q l Hq _ IH]; [reflexivity|]. cbn [forallb].
    rewrite IH. unfold has_text. destruct (query_text q); [reflexivity|].
    now contradiction Hq.
Qed.

(** X12. Two filters commute, a filter applied twice changes nothing, and
    the empty pattern keeps every query. *)
Theorem filter_by_pattern_composes (queries l1 l2 : list SlowQueryInfo)
    (p1 p2 : str) :
  filter_by_pattern queries (Some p1) = Ok l1 ->
  filter_by_pattern queries (Some p2) = Ok l2 ->
  filter_by_pattern l1 (Some p2) = filter_by_pattern l2 (Some p1) /\
  filter_by_pattern l1 (Some p1) = Ok l1 /\
  filter_by_pattern queries (Some []) = Ok queries.
Proof.
  rewrite !filter_by_pattern_spec.
  destruct (forallb has_text queries) eqn:Ht; [|discriminate].
  intros H1 H2. injection H1 as <-. injection H2 as <-.
  rewrite !forallb_filter by exact Ht.
  split; [f_equal; apply filter_comm|]. split; [f_equal; apply filter_idem|].
  f_equal. apply filter_all.
  rewrite forallb_forall in *. intros q Hq. specialize (Ht q Hq).
  unfold has_text in Ht. unfold text_contains.
  destruct (query_text q) as [text|]; [|discriminate Ht].
  change (str_upper []) with (@nil char). now destruct (str_upper text).
Qed.

End Filtering.

Lemma filter_by_pattern_result_witness :
  @filter_by_pattern Sample.runtime
    [Sample.record (Some sql_customers) 0.25 0 0 0; Sample.record None 0.25 0 0 0]
    (Some (lit "no such text")) = Raise AttributeError /\
  @filter_by_pattern Sample.runtime
    [Sample.record (Some sql_customers) 0.25 0 0 0;
     Sample.record (Some sql_like_smith) 0.25 0 0 0]
    (Some (lit "like")) = Ok [Sample.record (Some sql_like_smith) 0.25 0 0 0].
Proof.
  split.
  - apply (proj1 (@filter_by_pattern_result Sample.runtime _ _)).
    right. left. reflexivity.
  - etransitivity;
      [apply (proj2 (@filter_by_pattern_result Sample.runtime _ _));
       repeat constructor; discriminate
      |vm_compute; reflexivity].
Defined.

Lemma filter_by_pattern_composes_witness :
  @filter_by_pattern Sample.runtime
    [Sample.record (Some sql_like_smith) 0.25 0 0 0] (Some (lit "from"))
  = @filter_by_pattern Sample.runtime
      [Sample.record (Some sql_like_smith) 0.25 0 0 0] (Some (lit "like")).
Proof.
  apply (@filter_by_pattern_composes Sample.runtime
           [Sample.record (Some sql_customers) 0.25 0 0 0;
            Sample.record (Some sql_like_smith) 0.25 0 0 0]
           [Sample.record (Some sql_like_smith) 0.25 0 0 0]
           [Sample.record (Some sql_customers) 0.25 0 0 0;
            Sample.record (Some sql_like_smith) 0.25 0 0 0]
           (lit "like") (lit "from")); vm_compute; reflexivity.
Defined.

(** ** The statistics of the collected queries *)

Ltac SF_order :=
  unfold SFltb, SFleb, SFeqb, SFcompare;
  repeat match goal with
  | x : spec_float |- _ => destruct x as [[]|[]| |[] ? ?]
  end;
  try discriminate; try reflexivity; intros;
  repeat match goal with
  | H : context [Z.compare ?x ?y] |- _ => destruct (Z.compare_spec x y)
  | |- context [Z.compare ?x ?y] => destruct (Z.compare_spec x y)
  end; try discriminate; try reflexivity; try lia; subst;
  change (PosDef.Pos.compare_cont Eq) with Pos.compare in *;
  repeat match goal with
  | H : context [Pos.compare ?x ?y] |- _ => destruct (Pos.compare_spec x y)
  | |- context [Pos.compare ?x ?y] => destruct (Pos.compare_spec x y)
  end; simpl in *; try discriminate; try reflexivity; try lia.

Lemma SF_le_trans (a b c : spec_float) :
  SFleb a b = true -> SFleb b c = true -> SFleb a c = true.
Proof. revert a b c. intros a b c. SF_order. Qed.

Lemma SF_lt_le (a b : spec_float) : SFltb a b = true -> SFleb a b = true.
Proof. SF_order. Qed.

Lemma SF_le_total (a b : spec_float) :
  SFeqb a a = true -> SFeqb b b = true -> SFltb a b = false -> SFleb b a = true.
Proof. SF_order. Qed.

Lemma SF_le_refl (a : spec_float) : SFeqb a a = true -> SFleb a a = true.
Proof. unfold SFeqb, SFleb. now destruct (SFcompare a a) as [[]|]. Qed.

Lemma is_nan_false (x : float) :
  is_nan x = false -> SFeqb (Prim2SF x) (Prim2SF x) = true.
Proof.
  unfold is_nan. rewrite eqb_spec. now destruct (SFeqb _ _).
Qed.

(** The order of floats that are not NaN. *)
Lemma float_le_refl (x : float) : is_nan x = false -> (x <=? x)%float = true.
Proof. intros H. rewrite leb_spec. apply SF_le_refl, is_nan_false, H. Qed.

Lemma float_le_trans (a b c : float) :
  (a <=? b)%float = true -> (b <=? c)%float = true -> (a <=? c)%float = true.
Proof. rewrite !leb_spec. apply SF_le_trans. Qed.

Lemma float_lt_le (a b : float) : (a <? b)%float = true -> (a <=? b)%float = true.
Proof. rewrite ltb_spec, leb_spec. apply SF_lt_le. Qed.

Lemma float_le_total (a b : float) :
  is_nan a = false -> is_nan b = false ->
  (a <? b)%float = false -> (b <=? a)%float = true.
Proof.
  intros Ha Hb. rewrite ltb_spec, leb_spec.
  apply SF_le_total; apply is_nan_false; assumption.
Qed.

(** Without NaN, [max] returns an element that no element exceeds. *)
Lemma float_max_spec (xs : list float) :
  forall x,
    is_nan x = false -> Forall (fun y => is_nan y = false) xs ->
    In (float_max x xs) (x :: xs) /\
    (x <=? float_max x xs)%float = true /\
    Forall (fun y => (y <=? float_max x xs)%float = true) xs.
Proof.
  induction xs as [|y xs IH]; intros x Hx Hxs.
  - cbn. split; [now left|]. split; [apply float_le_refl, Hx | constructor].
  - inversion Hxs as [|? ? Hy Hxs']; subst.
    change (float_max x (y :: xs))
      with (float_max (if (x <? y)%float then y else x) xs).
    destruct (x <? y)%float eqn:E.
    + destruct (IH y Hy Hxs') as [Hin [Hle Hall]].
      split; [right; exact Hin|].
      split; [exact (float_le_trans _ _ _ (float_lt_le _ _ E) Hle)|].
      constructor; assumption.
    + destruct (IH x Hx Hxs') as [Hin [Hle Hall]].
      split; [destruct Hin as [Hin|Hin]; [now left | right; right; exact Hin]|].
      split; [exact Hle|].
      constructor; [|exact Hall].
      exact (float_le_trans _ _ _ (float_le_total _ _ Hx Hy E) Hle).
Qed.

Lemma str_eqb_eq (a b : str) : str_eqb a b = true <-> a = b.
Proof.
  revert b. induction a as [|x a IH]; intros [|y b]; cbn;
    try (split; [discriminate | discriminate]); [tauto|].
  rewrite andb_true_iff, N.eqb_eq, IH. split.
  - intros [-> ->]. reflexivity.
  - intros H. injection H as -> ->. auto.
Qed.

Lemma str_eqb_refl (a : str) : str_eqb a a = true.
Proof. now apply str_eqb_eq. Qed.

Lemma str_eqb_neq (a b : str) : str_eqb a b = false <-> a <> b.
Proof.
  rewrite <- str_eqb_eq. destruct (str_eqb a b); split; congruence.
Qed.

Section DictFacts.
Context {V : Type}.
Implicit Types (d : list (str * V)) (k : str) (v : V).

Lemma dict_lookup_set d k v k' :
  dict_lookup (dict_set d k v) k'
  = if str_eqb k k' then Some v else dict_lookup d k'.
Proof.
  induction d as [|[k0 x] d IH]; cbn [dict_set dict_lookup]; [reflexivity|].
  destruct (str_eqb k0 k) eqn:E0.
  - apply str_eqb_eq in E0. subst k0. cbn [dict_lookup].
    now destruct (str_eqb k k').
  - cbn [dict_lookup]. rewrite IH.
    destruct (str_eqb k0 k') eqn:E1; [|reflexivity].
    apply str_eqb_eq in E1. subst k'. now rewrite (proj2 (str_eqb_neq k k0))
      by (apply str_eqb_neq in E0; congruence).
Qed.

Lemma dict_set_In d k v k' v' :
  In (k', v') (dict_set d k v) -> (k' = k /\ v' = v) \/ In (k', v') d.
Proof.
  induction d as [|[k0 x] d IH]; cbn [dict_set].
  - intros [H|[]]. injection H as <- <-. auto.
  - destruct (str_eqb k0 k) eqn:E0.
    + apply str_eqb_eq in E0. subst k0. intros [H|H].
      * injection H as <- <-. auto.
      * right. now right.
    + intros [H|H]; [right; now left|].
      destruct (IH H) as [?|?]; [now left | right; now right].
Qed.

Lemma dict_set_keys d k v k' :
  In k' (map fst (dict_set d k v)) <-> k' = k \/ In k' (map fst d).
Proof.
  induction d as [|[k0 x] d IH]; cbn [dict_set map fst In].
  - intuition.
  - destruct (str_eqb k0 k) eqn:E0; cbn [map fst In].
    + apply str_eqb_eq in E0. subst k0. intuition.
    + rewrite IH. intuition.
Qed.

Lemma dict_set_NoDup d k v :
  NoDup (map fst d) -> NoDup (map fst (dict_set d k v)).
Proof.
  induction d as [|[k0 x] d IH]; cbn [dict_set map fst]; intros H.
  - repeat constructor. intros [].
  - inversion H as [|? ? Hn Hd]; subst.
    destruct (str_eqb k0 k) eqn:E0; cbn [map fst].
    + constructor; assumption.
    + constructor; [|apply IH, Hd].
      rewrite dict_set_keys. intros [->|Hin]; [|exact (Hn Hin)].
      now rewrite str_eqb_refl in E0.
Qed.

End DictFacts.

Lemma sum_counts_set (d : list (str * Z)) (k : str) (v : Z) :
  sum_counts (dict_set d k v)
  = (sum_counts d - dict_get_default d k 0 + v)%Z.
Proof.
  unfold sum_counts, dict_get_default.
  induction d as [|[k0 x] d IH]; cbn [dict_set dict_lookup map snd fold_right].
  - lia.
  - destruct (str_eqb k0 k); cbn [map snd fold_right]; [lia|].
    rewrite IH. lia.
Qed.

Section Statistics.
Context {rt : Runtime} {fa : FloatArith}.

Lemma severity_label (q : SlowQueryInfo) : In (severity q) severity_labels.
Proof.
  unfold severity, severity_labels.
  destruct (10.0 <=? _)%float; [|destruct (5.0 <=? _)%float;
    [|destruct (1.0 <=? _)%float]]; cbn [In]; auto.
Qed.

Lemma count_severity_snoc (label : str) (pre : list SlowQueryInfo)
    (q : SlowQueryInfo) :
  count_severity label (pre ++ [q])
  = count_severity label pre + (if str_eqb (severity q) label then 1 else 0).
Proof.
  unfold count_severity. rewrite filter_app, length_app. cbn [filter].
  now destruct (str_eqb (severity q) label).
Qed.

(** What the loop over the queries keeps true of the distribution. *)
Lemma severity_loop (queries : list SlowQueryInfo) :
  forall (d : list (str * Z)) (pre : list SlowQueryInfo),
    NoDup (map fst d) ->
    (forall label, dict_get_default d label 0%Z
                   = Z.of_nat (count_severity label pre)) ->
    (forall label n, In (label, n) d -> In label severity_labels /\ (0 < n)%Z) ->
    sum_counts d = Z.of_nat (List.length pre) ->
    let d' :=
      fold_left (fun severity_distribution q =>
        let severity := severity q in
        dict_set severity_distribution severity
          (dict_get_default severity_distribution severity 0 + 1)%Z)
        queries d in
    NoDup (map fst d') /\
    (forall label, dict_get_default d' label 0%Z
                   = Z.of_nat (count_severity label (pre ++ queries))) /\
    (forall label n, In (label, n) d' -> In label severity_labels /\ (0 < n)%Z) /\
    sum_counts d' = Z.of_nat (List.length (pre ++ queries)).
Proof.
  induction queries as [|q rest IH]; intros d pre H1 H2 H3 H4; cbv zeta.
  - cbn [fold_left]. rewrite app_nil_r. auto.
  - cbn [fold_left].
    replace (pre ++ q :: rest) with ((pre ++ [q]) ++ rest)
      by (rewrite <- app_assoc; reflexivity).
    apply IH.
    + apply dict_set_NoDup, H1.
    + intros label. unfold dict_get_default at 1. rewrite dict_lookup_set.
      rewrite count_severity_snoc.
      destruct (str_eqb (severity q) label) eqn:E.
      * apply str_eqb_eq in E. subst label. rewrite H2. lia.
      * fold (dict_get_default d label 0%Z). rewrite H2. lia.
    + intros label n Hin. apply dict_set_In in Hin.
      destruct Hin as [[-> ->]|Hin]; [|exact (H3 _ _ Hin)].
      split; [apply severity_label|]. rewrite H2. lia.
    + rewrite sum_counts_set, H4, length_app. cbn [List.length]. lia.
Qed.

(** X13. The severity distribution is the histogram of the queries: the
    count stored for a label is the number of queries of that severity, a
    label is stored once, only for one of the four labels and only with a
    positive count, and the counts add up to [total_queries], the number
    of queries. *)
Theorem severity_distribution_counts (queries : list SlowQueryInfo) :
  let statistics := get_query_statistics queries in
  total_queries statistics = Z.of_nat (List.length queries) /\
  NoDup (map fst (severity_distribution statistics)) /\
  (forall label,
     dict_get_default (severity_distribution statistics) label 0%Z
     = Z.of_nat (count_severity label queries)) /\
  (forall label n,
     In (label, n) (severity_distribution statistics) ->
     In label severity_labels /\ (0 < n)%Z) /\
  sum_counts (severity_distribution statistics) = total_queries statistics.
Proof.
  cbv zeta. destruct queries as [|q0 rest].
  - cbn. split; [reflexivity|]. split; [constructor|].
    split; [reflexivity|]. split; [intros ? ? []|reflexivity].
  - unfold get_query_statistics. cbv zeta.
    cbn [total_queries severity_distribution].
    destruct (severity_loop (q0 :: rest) [] []) as [H1 [H2 [H3 H4]]];
      [constructor | reflexivity | intros ? ? [] | reflexivity |].
    cbv zeta in H1, H2, H3, H4. cbn [app] in H2, H4.
    split; [reflexivity|]. auto.
Qed.

(** X14. When no execution time is NaN, [max_execution_time] is the
    execution time of one of the queries and no query ran longer. *)
Theorem max_execution_time_greatest (q0 : SlowQueryInfo)
    (rest : list SlowQueryInfo) :
  Forall (fun q => is_nan (execution_time q) = false) (q0 :: rest) ->
  exists m,
    max_execution_time (get_query_statistics (q0 :: rest)) = Float m /\
    In m (map execution_time (q0 :: rest)) /\
    Forall (fun q => (execution_time q <=? m)%float = true) (q0 :: rest).
Proof.
  intros H. inversion H as [|? ? H0 Hrest]; subst.
  unfold get_query_statistics. cbv zeta. cbn [max_execution_time].
  eexists. split; [reflexivity|].
  destruct (float_max_spec (map execution_time rest) (execution_time q0) H0)
    as [Hin [Hle Hall]].
  { apply Forall_map. exact Hrest. }
  split; [exact Hin|]. constructor; [exact Hle|].
  apply Forall_map in Hall. exact Hall.
Qed.

End Statistics.

Lemma max_execution_time_greatest_witness :
  max_execution_time
    (@get_query_statistics SampleMore.float_arith
       [Sample.record None 1.5 0 0 0; Sample.record None 12.5 0 0 0;
        Sample.record None 7.25 0 0 0]) = Float 12.5 /\
  exists m,
    max_execution_time
      (@get_query_statistics SampleMore.float_arith
         [Sample.record None 1.5 0 0 0; Sample.record None 12.5 0 0 0;
          Sample.record None 7.25 0 0 0]) = Float m /\
    Forall (fun q => (execution_time q <=? m)%float = true)
      [Sample.record None 1.5 0 0 0; Sample.record None 12.5 0 0 0;
       Sample.record None 7.25 0 0 0].
Proof.
  split; [vm_compute; reflexivity|].
  destruct (@max_execution_time_greatest SampleMore.float_arith
              (Sample.record None 1.5 0 0 0)
              [Sample.record None 12.5 0 0 0; Sample.record None 7.25 0 0 0])
    as [m [Hm [_ Hall]]].
  { repeat constructor. }
  exists m. split; [exact Hm | exact Hall].
Defined.

(** ** The main program *)


Section MainProgramProperties.
Context {rt : Runtime}.

Lemma generate_suggestions_text (q : SlowQueryInfo) (text : str)
    (ps : list QueryProblem) :
  query_text q = Some text ->
  exists l, generate_suggestions q ps = Ok l /\
    List.length l = List.length (filter is_recognized ps).
Proof.
  intros Hq. destruct (generate_loop_text q text Hq ps []) as [l [Hl HF]].
  exists l. split; [exact Hl|]. symmetry. exact (Forall2_length HF).
Qed.

(** X15. A statement analysed on its own is judged by its text only.  With
    thresholds that are not negative, the problems [analyze_specific_sql]
    returns are the problems of the structure pass, none of them about
    time, rows or memory, and nothing at all when [sqlparse] fails on the
    text; there is one suggestion for each problem the suggester
    recognizes.  Without a text the call raises AttributeError. *)
Theorem analyze_specific_sql_by_text_only (analyzer : QueryAnalyzer)
    (now1 now2 : datetime) (text : str) :
  (0 <= max_scan_rows analyzer)%Z -> (0 <= max_scan_bytes analyzer)%Z ->
  (exists r,
     analyze_specific_sql analyzer now1 now2 (Some text) = Ok r /\
     analysis_sql r = Some text /\
     analysis_problems r = map problem_entry (structure_result text) /\
     List.length (analysis_suggestions r)
     = List.length (filter is_recognized (structure_result text))) /\
  analyze_specific_sql analyzer now1 now2 None = Raise AttributeError.
Proof.
  intros Hrows Hbytes. split; [|reflexivity].
  unfold analyze_specific_sql. cbv zeta.
  set (q := {| query_id := lit "manual_analysis"; query_text := Some text;
               database := []; user := lit "manual"; execution_time := 0;
               scan_rows := 0; scan_bytes := 0; memory_used := 0;
               cpu_time := 0; start_time := now1; end_time := (now2 + 1)%Z;
               peak_memory := 0; rows_returned := 0 |}).
  rewrite (analyze_query_text analyzer q None text eq_refl).
  assert (Ht : _analyze_execution_time q = []) by reflexivity.
  assert (Hs : _analyze_scan_data analyzer q = []).
  { unfold _analyze_scan_data. cbv zeta. cbn [scan_rows scan_bytes memory_used q].
    replace (0 >? max_scan_rows analyzer)%Z with false
      by (symmetry; rewrite Z.gtb_ltb; apply Z.ltb_ge; exact Hrows).
    replace (0 >? max_scan_bytes analyzer)%Z with false
      by (symmetry; rewrite Z.gtb_ltb; apply Z.ltb_ge; exact Hbytes).
    reflexivity. }
  rewrite Ht, Hs. cbn [app plan_result]. rewrite app_nil_r. cbn [bind].
  destruct (generate_suggestions_text q text (structure_result text) eq_refl)
    as [l [Hl Hlen]].
  rewrite Hl. cbn [bind]. eexists. split; [reflexivity|].
  cbn [analysis_sql analysis_problems analysis_suggestions].
  split; [reflexivity|]. split; [reflexivity|]. rewrite length_map. exact Hlen.
Qed.



End MainProgramProperties.

Lemma analyze_specific_sql_by_text_only_witness :
  exists r,
    @analyze_specific_sql Sample.runtime (QueryAnalyzer_init None) 0%Z 0%Z
      (Some sql_customers) = Ok r /\
    analysis_problems r = [problem_entry no_where_problem] /\
    analysis_suggestions r = [].
Proof.
  destruct (@analyze_specific_sql_by_text_only Sample.runtime
              (QueryAnalyzer_init None) 0%Z 0%Z sql_customers)
    as [[r [Hr [_ [Hp Hs]]]] _]; [vm_compute; discriminate.. |].
  exists r. split; [exact Hr|]. split.
  - rewrite Hp. vm_compute. reflexivity.
  - destruct (analysis_suggestions r); [reflexivity|].
    vm_compute in Hs. discriminate Hs.
Defined.

(** ** The table names of the analyzer *)

Section AnalyzerTablesProperties.
Context {rt : Runtime} {tk : Tokens}.

Lemma list_of_set_nil : list_of_set [] = [].
Proof.
  destruct (list_of_set []) as [|x l] eqn:E; [reflexivity|].
  exfalso. apply (proj1 (list_of_set_In [] x)). rewrite E. now left.
Qed.

Lemma re_keyword_token_cs_group (keyword w : str) (g' : option str) :
  matches (re_keyword_token_cs keyword) w None g' ->
  exists x, g' = Some x /\ (x <> [] /\ forallb token_char x = true).
Proof.
  unfold re_keyword_token_cs. cbn [matches].
  intros [w1 [w2 [g1 [_ [_ [w3 [w4 [g2 [_ [_ [[g3 [Hlen [Hw _]]] ->]]]]]]]]]]].
  exists w4. split; [reflexivity|]. split; [|exact Hw].
  destruct w4; [cbn in Hlen; lia | discriminate].
Qed.

Lemma tables_loop_ok (ms : list str) :
  forall tables,
    Forall (fun m => m <> [] /\ forallb token_char m = true) ms ->
    Forall table_name_ok tables ->
    Forall table_name_ok
      (fold_left (fun tables m =>
         let table := strip_chars ([chr "`"; dquote] ++ lit "[]") m in
         if negb (str_eqb table [])
            && negb (str_in (str_upper table)
                       [lit "WHERE"; lit "ON"; lit "SELECT"; lit "AS"])
         then tables ++ [table]
         else tables) ms tables).
Proof.
  induction ms as [|m ms IH]; intros tables Hms Ht; [exact Ht|].
  inversion Hms as [|? ? [_ Hm] Hms']; subst.
  cbn [fold_left]. apply IH; [exact Hms'|]. apply table_step; assumption.
Qed.

(** X17. [extract_tables] returns for every argument: the names are
    distinct and well formed (non-empty, without white space, comma or
    semicolon, without a quote or bracket at either end, none of WHERE, ON,
    SELECT, AS), and the list is empty when there is no text or when
    [sqlparse] raises, returns no statement or fails on the tokens. *)
Theorem extract_tables_well_formed (query_text : option str) :
  NoDup (extract_tables query_text) /\
  Forall table_name_ok (extract_tables query_text) /\
  match stmts <- parse_method query_text ;; parsed <- index0 stmts ;; flatten parsed with
  | Ok _ => True
  | Raise _ => extract_tables query_text = []
  end.
Proof.
  unfold extract_tables. cbv zeta.
  split; [apply list_of_set_NoDup|].
  destruct (parse_method query_text) as [[|parsed stmts]|e] eqn:Hp;
    cbn [bind index0];
    [rewrite list_of_set_nil; split; [constructor | reflexivity]
    | | rewrite list_of_set_nil; split; [constructor | reflexivity]].
  destruct (flatten parsed) as [tokens|e]; cbn [bind];
    [|rewrite list_of_set_nil; split; [constructor | reflexivity]].
  destruct query_text as [text|]; [|discriminate Hp].
  cbn [upper_method bind]. split; [|exact I].
  apply Forall_forall. intros t Ht.
  apply (proj1 (list_of_set_In _ _)) in Ht. revert t Ht. apply Forall_forall.
  assert (Houter : forall keywords tables,
            Forall table_name_ok tables ->
            Forall table_name_ok
              (fold_left (fun tables keyword =>
                 let matches :=
                   re_findall (re_keyword_token_cs keyword) (str_upper text) in
                 fold_left (fun tables m =>
                   let table := strip_chars ([chr "`"; dquote] ++ lit "[]") m in
                   if negb (str_eqb table [])
                      && negb (str_in (str_upper table)
                                 [lit "WHERE"; lit "ON"; lit "SELECT"; lit "AS"])
                   then tables ++ [table]
                   else tables) matches tables) keywords tables)).
  { induction keywords as [|k ks IH]; intros tables Ht; [exact Ht|].
    cbn [fold_left]. apply IH. cbv zeta. apply tables_loop_ok; [|exact Ht].
    apply re_findall_groups. apply re_keyword_token_cs_group. }
  exact (Houter [lit "FROM"; lit "JOIN"; lit "INTO"; lit "UPDATE"; lit "TABLE"]
           [] (Forall_nil _)).
Qed.

End AnalyzerTablesProperties.

Example extract_tables_example :
  @extract_tables Sample.runtime SampleMore.tokens
    (Some (lit "select * from orders o join [items] i on o.id = i.oid"))
  = [lit "ORDERS"; lit "ITEMS"].
Proof. vm_compute. reflexivity. Qed.

(** ** The statement of the collector *)

(** X18. The statement of [collect_slow_queries] has as many [%s] places
    as there are parameters, and its text depends on the filters only by
    whether each is given: a filter value reaches the connector as a
    parameter, never as part of the statement. *)
Theorem collect_statement_parameters (now : datetime) (time_range_hours : Z)
    (min_execution_time : float) (database_filter user_filter : option str) :
  let statement :=
    collect_slow_queries_statement now time_range_hours min_execution_time
      database_filter user_filter in
  count_sub (lit "%s") (fst statement) = List.length (snd statement) /\
  List.length (snd statement)
  = 2 + (if truthy database_filter then 1 else 0)
      + (if truthy user_filter then 1 else 0) /\
  forall now' hours' min' database_filter' user_filter',
    truthy database_filter' = truthy database_filter ->
    truthy user_filter' = truthy user_filter ->
    fst (collect_slow_queries_statement now' hours' min' database_filter'
           user_filter')
    = fst statement.
Proof.
  cbv zeta. split; [|split].
  - destruct database_filter as [[|c1 s1]|], user_filter as [[|c2 s2]|];
      vm_compute; reflexivity.
  - destruct database_filter as [[|c1 s1]|], user_filter as [[|c2 s2]|];
      reflexivity.
  - intros now' hours' min' d' u' Hd Hu.
    destruct database_filter as [[|c1 s1]|], user_filter as [[|c2 s2]|];
      destruct d' as [[|c3 s3]|], u' as [[|c4 s4]|];
      try discriminate Hd; try discriminate Hu; reflexivity.
Qed.

(** ** The severity of a query and of its execution-time problem *)

Section SeverityProperties.
Context {rt : Runtime}.

(** X19. The execution-time pass and the severity of a query agree: the
    pass reports nothing exactly for the queries of severity MEDIUM or LOW,
    and for the others one full table scan whose severity is the severity
    of the query, CRITICAL or HIGH. *)
Theorem execution_time_problem_matches_severity (q : SlowQueryInfo) :
  match _analyze_execution_time q with
  | [] => severity q = lit "MEDIUM" \/ severity q = lit "LOW"
  | [p] =>
    problem_type p = FULL_TABLE_SCAN /\ problem_severity p = severity q /\
    (severity q = lit "CRITICAL" \/ severity q = lit "HIGH")
  | _ => False
  end.
Proof.
  unfold _analyze_execution_time, severity. cbv zeta.
  destruct (10.0 <=? execution_time q)%float.
  - cbn [app problem_type problem_severity]. auto.
  - destruct (5.0 <=? execution_time q)%float.
    + cbn [app problem_type problem_severity]. auto.
    + destruct (1.0 <=? execution_time q)%float; auto.
Qed.

(** ** Suggestions for a query without text *)

Lemma generate_loop_no_text (q : SlowQueryInfo) :
  query_text q = None ->
  forall ps acc,
    if existsb (fun p => needs_text (problem_type p)) ps
    then generate_loop q ps acc = Raise TypeError
    else exists l,
           generate_loop q ps acc = Ok (acc ++ l) /\
           List.length l = List.length (filter is_recognized ps).
Proof.
  intros Hq. induction ps as [|p ps IH]; intros acc.
  - cbn. exists []. now rewrite app_nil_r.
  - cbn [existsb generate_loop filter]. rewrite generate_suggestion_dispatch.
    unfold is_recognized at 1.
    destruct (problem_type p) eqn:Ety; cbn [needs_text orb recognized];
      try (unfold _suggest_index_optimization, _extract_where_columns;
           rewrite Hq; reflexivity);
      try (unfold _suggest_specific_columns, _extract_table_names;
           rewrite Hq; reflexivity);
      try (unfold _suggest_like_optimization; rewrite Hq; reflexivity);
      try (cbn [bind]; specialize (IH acc);
           destruct (existsb _ ps); [exact IH|];
           destruct IH as [l [Hl Hlen]]; exists l; split; [exact Hl|];
           change (recognized _) with false; exact Hlen).
    all: unfold _suggest_or_replacement, _suggest_function_optimization,
           _suggest_row_reduction, _suggest_cte_or_join; cbv zeta; cbn [bind];
         match goal with
         | IH' : forall acc0, _ |- context [generate_loop _ ?ps0 (?a ++ [?s])] =>
           specialize (IH' (a ++ [s])); destruct (existsb _ ps0); [exact IH'|];
           destruct IH' as [l [Hl Hlen]]; exists (s :: l);
           split; [rewrite Hl, <- app_assoc; reflexivity|];
           change (recognized _) with true; cbn [List.length]; now rewrite Hlen
         end.
Qed.

(** X20. For a query without text, [generate_suggestions] raises TypeError
    as soon as one problem is a full table scan, a SELECT star or a LIKE
    prefix wildcard, whose suggestions search the text; with none of these
    it returns one suggestion for each recognized problem, every one with
    no original statement. *)
Theorem suggestions_without_text (q : SlowQueryInfo) (ps : list QueryProblem) :
  query_text q = None ->
  if existsb (fun p => needs_text (problem_type p)) ps
  then generate_suggestions q ps = Raise TypeError
  else exists l,
         generate_suggestions q ps = Ok l /\
         List.length l = List.length (filter is_recognized ps) /\
         Forall (fun s => original_sql s = None) l.
Proof.
  intros Hq. unfold generate_suggestions. cbv zeta.
  assert (H := generate_loop_no_text q Hq ps []).
  destruct (existsb _ ps); [exact H|].
  destruct H as [l [Hl Hlen]]. exists l. cbn [app] in Hl.
  split; [exact Hl|]. split; [exact Hlen|].
  destruct (generate_loop_original q ps [] l Hl) as [l' [-> [HF _]]].
  rewrite Hq in HF. exact HF.
Qed.

End SeverityProperties.

Lemma suggestions_without_text_witness :
  @generate_suggestions Sample.runtime (Sample.record None 0.25 0 0 0)
    [or_condition_problem; select_star_problem] = Raise TypeError /\
  exists l,
    @generate_suggestions Sample.runtime (Sample.record None 0.25 0 0 0)
      [or_condition_problem; no_where_problem] = Ok l /\
    List.length l = 1.
Proof.
  split.
  - exact (@suggestions_without_text Sample.runtime
             (Sample.record None 0.25 0 0 0)
             [or_condition_problem; select_star_problem] eq_refl).
  - destruct (@suggestions_without_text Sample.runtime
                (Sample.record None 0.25 0 0 0)
                [or_condition_problem; no_where_problem] eq_refl)
      as [l [Hl [Hlen _]]].
    exists l. split; [exact Hl | exact Hlen].
Defined.
